(** * argdispatcher: value-dispatch registry

    A shallow embedding of [argdispatcher.py]: the [Dispatcher] descriptor
    (registry plus call-time resolution) and the [dispatcher] factory,
    followed by the properties of the dispatch layer.

    Python objects live in a store; a [Dispatcher] is referred to by its
    location, so that two dispatchers are two objects with two mappings.
    Exceptions are values of an error monad threaded through the store:
    whatever was written before a [raise] stays written. *)

From Stdlib Require Import ZArith Lia Ascii String.
From stdpp Require Import base list strings pretty.

Local Open Scope Z_scope.
Local Open Scope string_scope.

(** ** Python values *)

Module Py.

(** Hashable scalars: what a discriminant value (and a dict key) can be. *)
Inductive hval : Type :=
  | DNone
  | DBool (b : bool)
  | DInt (n : Z)
  | DStr (s : string).

(** The objects passed around by the doctests: scalars, tuples, dicts
    and record-like objects (a namedtuple, a plain instance). *)
#[warnings="-register-all"]
Inductive pyobj : Type :=
  | OVal (v : hval)
  | OTuple (xs : list pyobj)
  | ODict (items : list (hval * pyobj))
  | OObj (cls : string) (fields : list (string * pyobj)).

Definition kwargs : Type := list (string * pyobj).

(** Python's [==] on scalars: [bool] is a subclass of [int], so
    [True == 1] and [False == 0]; equal scalars have equal hashes. *)
Definition py_eqb (a b : hval) : bool :=
  match a, b with
  | DNone, DNone => true
  | DBool x, DBool y => Bool.eqb x y
  | DBool x, DInt n | DInt n, DBool x => Z.eqb (Z.b2z x) n
  | DInt n, DInt m => Z.eqb n m
  | DStr s, DStr t => String.eqb s t
  | _, _ => false
  end.

(** Truth value, as tested by [if key:]. *)
Definition truthy (a : hval) : bool :=
  match a with
  | DNone => false
  | DBool b => b
  | DInt n => negb (Z.eqb n 0)
  | DStr s => negb (String.eqb s EmptyString)
  end.

(** [str(v)], as interpolated by an f-string. *)
Definition py_str (a : hval) : string :=
  match a with
  | DNone => "None"
  | DBool true => "True"
  | DBool false => "False"
  | DInt n => pretty n
  | DStr s => s
  end.

Inductive exn : Type :=
  | TypeError (msg : string)
  | ValueError (msg : string)
  | KeyError (msg : string)
  | AttributeError (msg : string)
  | SystemError (msg : string).

Inductive outcome (A : Type) : Type :=
  | Return (a : A)
  | Raise (e : exn).

Arguments Return {A} a.
Arguments Raise {A} e.

(** The double-quote character, for the messages that quote a value. *)
Definition dq : string := String "034"%char EmptyString.

End Py.

(** ** Python dicts, as [Dispatcher._mapping] uses them *)

Module Dict.
Import Py.

(** Keys of the mapping: a discriminant value, or the module-level sentinel
    [_NOMATCH = object()], an object equal to itself only. *)
Inductive mkey : Type :=
  | KVal (v : hval)
  | _NOMATCH.

Definition key_eqb (a b : mkey) : bool :=
  match a, b with
  | KVal x, KVal y => py_eqb x y
  | _NOMATCH, _NOMATCH => true
  | _, _ => false
  end.

Section Ops.
Context {V : Type}.

(** Entries in insertion order; keys are compared with [==]. *)
Definition dict : Type := list (mkey * V).

(** [k in d] *)
Definition contains (k : mkey) (d : dict) : bool :=
  existsb (fun e => key_eqb (fst e) k) d.

(** [d[k]], [None] standing for [KeyError]. *)
Fixpoint getitem (k : mkey) (d : dict) : option V :=
  match d with
  | [] => None
  | (k', v) :: d' => if key_eqb k' k then Some v else getitem k d'
  end.

(** [d[k] = v]: an equal key keeps its slot and takes the new value,
    a fresh key goes last. *)
Fixpoint setitem (k : mkey) (v : V) (d : dict) : dict :=
  match d with
  | [] => [(k, v)]
  | (k', v') :: d' =>
      if key_eqb k' k then (k', v) :: d' else (k', v') :: setitem k v d'
  end.

(** Number of entries stored under a key equal to [k]. *)
Definition count (k : mkey) (d : dict) : nat :=
  length (List.filter (fun e => key_eqb (fst e) k) d).

(** No two entries have equal keys. *)
Inductive wf : dict -> Prop :=
  | wf_nil : wf []
  | wf_cons k v d : contains k d = false -> wf d -> wf ((k, v) :: d).

End Ops.

Arguments dict V : clear implicits.

End Dict.

(** ** Objects, the store and the exception monad *)

Import Py Dict.

(** A decorated function.  Function objects have an identity; the body is
    opaque to the dispatch layer and may itself raise. *)
Record handler : Type := mkHandler {
  fn_id : nat;
  fn_body : pyobj -> pyobj -> list pyobj -> kwargs -> outcome pyobj
}.

(** The instance attributes set by [Dispatcher.__init__].  The getter
    yields the discriminant, a hashable scalar; both strategies may raise. *)
Record Dispatcher : Type := mkDispatcher {
  _key : hval;
  _mapping : dict handler;
  _getter : pyobj -> outcome hval;
  _contains : pyobj -> hval -> outcome bool
}.

(** One handler invocation, as observed from outside the dispatch layer. *)
Record call : Type := mkCall {
  callee : nat;
  call_instance : pyobj;
  call_first : pyobj;
  call_rest : list pyobj;
  call_kwargs : kwargs
}.

Definition loc : Type := nat.

(** The store: the [Dispatcher] objects allocated so far, and the log of
    handler invocations (ghost state, only ever appended to). *)
Record world : Type := mkWorld {
  heap : list Dispatcher;
  calls : list call
}.

Definition M (A : Type) : Type := world -> outcome A * world.

Definition ret {A} (a : A) : M A := fun w => (Return a, w).

Definition raise {A} (e : exn) : M A := fun w => (Raise e, w).

Definition bind {A B} (m : M A) (k : A -> M B) : M B :=
  fun w =>
    match m w with
    | (Return a, w') => k a w'
    | (Raise e, w') => (Raise e, w')
    end.

Notation "'let!' x ':=' c1 'in' c2" := (bind c1 (fun x => c2))
  (at level 10, x name, c1 at level 100, c2 at level 200).
Notation "c1 ;; c2" := (bind c1 (fun _ => c2))
  (at level 100, c2 at level 200, right associativity).

(** A store-independent computation that may raise. *)
Definition lift {A} (o : outcome A) : M A := fun w => (o, w).

(** Reading the object behind a reference.  References come from [alloc]
    and objects are never freed; the error branch is for ill-formed stores. *)
Definition deref (self : loc) : M Dispatcher :=
  fun w =>
    match heap w !! self with
    | Some d => (Return d, w)
    | None => (Raise (SystemError "invalid reference"), w)
    end.

Definition alloc (d : Dispatcher) : M loc :=
  fun w => (Return (length (heap w)),
            {| heap := heap w ++ [d]; calls := calls w |}).

(** The object [d] with its mapping updated in place. *)
Definition with_mapping (d : Dispatcher) (m : dict handler) : Dispatcher :=
  {| _key := _key d; _mapping := m;
     _getter := _getter d; _contains := _contains d |}.

Definition store (self : loc) (d : Dispatcher) : M unit :=
  fun w => (Return tt, {| heap := <[self := d]> (heap w); calls := calls w |}).

(** [self._mapping[k] = h] *)
Definition mapping_setitem (self : loc) (k : mkey) (h : handler) : M unit :=
  let! d := deref self in
  store self (with_mapping d (setitem k h (_mapping d))).

(** Calling [h] on [instance], [first], the unpacked [rest] and [kw]. *)
Definition invoke (h : handler) (instance first : pyobj)
    (rest : list pyobj) (kw : kwargs) : M pyobj :=
  fun w =>
    (fn_body h instance first rest kw,
     {| heap := heap w;
        calls := calls w ++ [mkCall (fn_id h) instance first rest kw] |}).

(** The store after [h] has been called once on the given arguments: the
    same objects, one more entry in the log. *)
Definition called (w : world) (h : handler) (instance first : pyobj)
    (rest : list pyobj) (kw : kwargs) : world :=
  {| heap := heap w;
     calls := calls w ++ [mkCall (fn_id h) instance first rest kw] |}.

(** ** Error messages *)

Definition MissingSubjectError : exn :=
  TypeError "Dispatcher expect at least one positional argument for matching".

Definition MissingDiscriminantError (key : hval) : exn :=
  ValueError ("First argument doesn't contains key " ++ dq ++ py_str key ++ dq).

Definition UnregisteredHandlerError (value : hval) : exn :=
  TypeError ("Handler for " ++ dq ++ py_str value ++ dq ++ " is not registered").

Definition DuplicateHandlerError (value : hval) : exn :=
  TypeError ("Handler for " ++ dq ++ py_str value ++ dq ++ " already registered").

Definition ConfigurationError : exn :=
  ValueError ("Provide either " ++ dq ++ "key" ++ dq ++ " or " ++ dq ++ "attr"
              ++ dq ++ " argument for matching").

(** What [KeyError] shows of a key that is not in the mapping. *)
Definition key_str (k : mkey) : string :=
  match k with
  | KVal v => py_str v
  | _NOMATCH => "<object object>"
  end.

(** ** class Dispatcher *)

Module Dispatcher.

(** [_set_link]: link value to handler. *)
Definition _set_link (self : loc) (value : mkey) (h : handler) : M unit :=
  mapping_setitem self value h.

(** [__init__]: the object is created with its key, an empty mapping, the
    getter and the contains test, then the first value is linked. *)
Definition __init__ (key value : hval) (h : handler)
    (getter : pyobj -> outcome hval)
    (contains : pyobj -> hval -> outcome bool) : M loc :=
  let! self := alloc {| _key := key; _mapping := [];
                        _getter := getter; _contains := contains |} in
  _set_link self (KVal value) h ;;
  ret self.

(** [__get__(instance, instance_type)] returns [wrapper]; this is the call
    of that closure on [args] and [kwargs].  The source does not use
    [instance_type]. *)
Definition __get__ (self : loc) (instance instance_type : pyobj)
    (args : list pyobj) (kw : kwargs) : M pyobj :=
  (* first argument passed? *)
  let! first := match args !! 0%nat with
                | Some a => ret a
                | None => raise MissingSubjectError
                end in
  (* key in passed argument? *)
  let! d := deref self in
  let! has := lift (_contains d first (_key d)) in
  if negb has then raise (MissingDiscriminantError (_key d)) else
  (* get value, check if it's in mapping, fall back on the default *)
  let! d := deref self in
  let! value := lift (_getter d first) in
  let! d := deref self in
  let! value := (if negb (contains (KVal value) (_mapping d)) then
                   if negb (contains _NOMATCH (_mapping d)) then
                     raise (UnregisteredHandlerError value)
                   else ret _NOMATCH
                 else ret (KVal value)) in
  (* all checks passed, dispatch call by value *)
  let! d := deref self in
  let! h := match getitem value (_mapping d) with
            | Some h => ret h
            | None => raise (KeyError (key_str value))
            end in
  invoke h instance first (drop 1 args) kw.

(** [match(value)] returns [wrapper]; this is [wrapper(method)]. *)
Definition match_ (self : loc) (value : hval) (method : handler) : M loc :=
  let! d := deref self in
  if contains (KVal value) (_mapping d) then
    raise (DuplicateHandlerError value)
  else
    _set_link self (KVal value) method ;;
    ret self.

(** [nomatch(method)]: add the default case-handler. *)
Definition nomatch (self : loc) (method : handler) : M loc :=
  _set_link self _NOMATCH method ;;
  ret self.

End Dispatcher.

(** ** def dispatcher *)

Section Factory.

(** The strategies come from Python's library, not from this module:
    [operator.itemgetter], [operator.contains], [operator.attrgetter]
    (which rejects an attribute name that is not a string) and [hasattr]. *)
Variable itemgetter : hval -> pyobj -> outcome hval.
Variable operator_contains : pyobj -> hval -> outcome bool.
Variable attrgetter : hval -> outcome (pyobj -> outcome hval).
Variable hasattr : pyobj -> hval -> outcome bool.

(** [dispatcher(attr, key, value)] returns [wrapper]; this is
    [wrapper(method)].  The keyword defaults are [None]. *)
Definition dispatcher (attr key value : hval) (method : handler) : M loc :=
  if truthy key then
    Dispatcher.__init__ key value method (itemgetter key) operator_contains
  else if truthy attr then
    let! getter := lift (attrgetter attr) in
    Dispatcher.__init__ attr value method getter hasattr
  else
    raise ConfigurationError.

End Factory.

(** ** Reference strategies

    The library functions on the objects of this development: dict
    subjects for key mode, record subjects for attribute mode.  On any
    other shape of subject they raise [TypeError]; dotted attribute paths
    are not interpreted.  A discriminant has to be hashable to be looked
    up in the mapping: an extracted object that is not a scalar is reported
    the way the lookup of a dict or a list would report it. *)

Module PyBuiltins.

Definition as_discriminant (o : pyobj) : outcome hval :=
  match o with
  | OVal v => Return v
  | _ => Raise (TypeError "unhashable type")
  end.

Definition itemgetter (key : hval) (obj : pyobj) : outcome hval :=
  match obj with
  | ODict items =>
      match find (fun e => py_eqb (fst e) key) items with
      | Some e => as_discriminant (snd e)
      | None => Raise (KeyError (py_str key))
      end
  | _ => Raise (TypeError "object is not subscriptable")
  end.

Definition operator_contains (obj : pyobj) (key : hval) : outcome bool :=
  match obj with
  | ODict items => Return (existsb (fun e => py_eqb (fst e) key) items)
  | _ => Raise (TypeError "argument is not iterable")
  end.

Definition getattr (obj : pyobj) (name : string) : outcome pyobj :=
  match obj with
  | OObj _ fields =>
      match find (fun e => String.eqb (fst e) name) fields with
      | Some e => Return (snd e)
      | None => Raise (AttributeError name)
      end
  | _ => Raise (AttributeError name)
  end.

Definition attrgetter (attr : hval) : outcome (pyobj -> outcome hval) :=
  match attr with
  | DStr name =>
      Return (fun obj =>
                match getattr obj name with
                | Return o => as_discriminant o
                | Raise e => Raise e
                end)
  | _ => Raise (TypeError "attribute name must be a string")
  end.

(** [hasattr] is [getattr] with [AttributeError] caught. *)
Definition hasattr (obj : pyobj) (name : hval) : outcome bool :=
  match name with
  | DStr name =>
      match getattr obj name with
      | Return _ => Return true
      | Raise (AttributeError _) => Return false
      | Raise e => Raise e
      end
  | _ => Raise (TypeError "attribute name must be string")
  end.

Definition dispatcher : hval -> hval -> hval -> handler -> M loc :=
  dispatcher itemgetter operator_contains attrgetter hasattr.

End PyBuiltins.

(** ** Client scripts

    The three operations a client performs on a registry.  A script is a
    sequence of calls, each on some registry; a call that raises is caught
    and the script goes on, so that the store after a failed call is
    observed by the calls that follow. *)

Inductive op : Type :=
  | AddCase (value : hval) (method : handler)
  | AddDefault (method : handler)
  | Dispatch (instance instance_type : pyobj) (args : list pyobj) (kw : kwargs).

Definition run_op (self : loc) (o : op) : M unit :=
  match o with
  | AddCase value method => Dispatcher.match_ self value method ;; ret tt
  | AddDefault method => Dispatcher.nomatch self method ;; ret tt
  | Dispatch instance instance_type args kw =>
      Dispatcher.__get__ self instance instance_type args kw ;; ret tt
  end.

Definition exec (script : list (loc * op)) (w : world) : world :=
  fold_left (fun w step => snd (run_op (fst step) (snd step) w)) script w.

(** The mapping of the registry at [self], empty if there is none. *)
Definition mapping_of (w : world) (self : loc) : dict handler :=
  match heap w !! self with
  | Some d => _mapping d
  | None => []
  end.

(** The registry at [self] has the given key, getter and contains test. *)
Definition configured (w : world) (self : loc) (key : hval)
    (getter : pyobj -> outcome hval)
    (has : pyobj -> hval -> outcome bool) : Prop :=
  exists d, heap w !! self = Some d /\
            _key d = key /\ _getter d = getter /\ _contains d = has.

(** Same key, getter and contains test; a well-formed mapping stays so. *)
Definition evolves (d d' : Dispatcher) : Prop :=
  _key d' = _key d /\ _getter d' = _getter d /\ _contains d' = _contains d /\
  (wf (_mapping d) -> wf (_mapping d')).

(** The handler the wrapper ends up calling for an extracted value: the one
    stored under the value if there is one, else the one under [_NOMATCH]. *)
Definition selected (m : dict handler) (value : hval) : option handler :=
  match getitem (KVal value) m with
  | Some h => Some h
  | None => getitem _NOMATCH m
  end.

Definition empty_world : world := {| heap := []; calls := [] |}.

(** ** The module's doctests, as data *)

Module Doctest.

Definition marker_is (first : pyobj) (v : string) : bool :=
  let marker :=
    match first with
    | ODict items =>
        option_map snd (find (fun e => py_eqb (fst e) (DStr "marker")) items)
    | OObj _ fields =>
        option_map snd (find (fun e => String.eqb (fst e) "marker") fields)
    | _ => None
    end in
  match marker with
  | Some (OVal (DStr s)) => String.eqb s v
  | _ => false
  end.

Definition kwdict (kw : kwargs) : pyobj :=
  ODict (map (fun e => (DStr (fst e), snd e)) kw).

(** [return first['marker'] == v, args, kwargs] *)
Definition case (id : nat) (v : string) : handler :=
  {| fn_id := id;
     fn_body := fun _ first rest kw =>
       Return (OTuple [OVal (DBool (marker_is first v)); OTuple rest; kwdict kw]) |}.

(** [return False, first, args, kwargs] *)
Definition fallback (id : nat) : handler :=
  {| fn_id := id;
     fn_body := fun _ first rest kw =>
       Return (OTuple [OVal (DBool false); first; OTuple rest; kwdict kw]) |}.

(** [class ForKey]: three cases and a default, in key mode. *)
Definition ForKey : M loc :=
  let! cases := PyBuiltins.dispatcher DNone (DStr "key") (DStr "value-1")
                  (case 1 "value-1") in
  let! cases := Dispatcher.match_ cases (DStr "value-2") (case 2 "value-2") in
  let! cases := Dispatcher.match_ cases (DStr "value-3") (case 3 "value-3") in
  Dispatcher.nomatch cases (fallback 4).

(** [class ForAttr]: three cases, no default, in attribute mode. *)
Definition ForAttr : M loc :=
  let! cases := PyBuiltins.dispatcher (DStr "attr") DNone (DStr "value-1")
                  (case 5 "value-1") in
  let! cases := Dispatcher.match_ cases (DStr "value-2") (case 6 "value-2") in
  Dispatcher.match_ cases (DStr "value-3") (case 7 "value-3").

Definition keyed (v : string) : pyobj :=
  ODict [(DStr "key", OVal (DStr v)); (DStr "marker", OVal (DStr v))].

Definition Data (attr marker : string) : pyobj :=
  OObj "Data" [("attr", OVal (DStr attr)); ("marker", OVal (DStr marker))].

(** The two registries as the class bodies leave them. *)
Definition key_cases : Dispatcher :=
  {| _key := DStr "key";
     _mapping := [(KVal (DStr "value-1"), case 1 "value-1");
                  (KVal (DStr "value-2"), case 2 "value-2");
                  (KVal (DStr "value-3"), case 3 "value-3");
                  (_NOMATCH, fallback 4)];
     _getter := PyBuiltins.itemgetter (DStr "key");
     _contains := PyBuiltins.operator_contains |}.

Definition attr_cases : Dispatcher :=
  {| _key := DStr "attr";
     _mapping := [(KVal (DStr "value-1"), case 5 "value-1");
                  (KVal (DStr "value-2"), case 6 "value-2");
                  (KVal (DStr "value-3"), case 7 "value-3")];
     _getter := fun obj =>
       match PyBuiltins.getattr obj "attr" with
       | Return o => PyBuiltins.as_discriminant o
       | Raise e => Raise e
       end;
     _contains := PyBuiltins.hasattr |}.

Definition fk : pyobj := OObj "ForKey" [].
Definition fa : pyobj := OObj "ForAttr" [].

(** Both classes defined, in the order of the module docstring. *)
Definition classes : M (loc * loc) :=
  let! k := ForKey in
  let! a := ForAttr in
  ret (k, a).

Definition loaded : world := snd (classes empty_world).

End Doctest.

(** * Facts *)

(** ** Equality of scalars and of keys *)

Section Equality.

Lemma py_eqb_refl (a : hval) : py_eqb a a = true.
Proof.
  destruct a as [ | b | n | s]; simpl; trivial.
  - now destruct b.
  - apply Z.eqb_refl.
  - apply String.eqb_refl.
Qed.

Lemma py_eqb_sym (a b : hval) : py_eqb a b = py_eqb b a.
Proof.
  destruct a as [ | x | n | s], b as [ | y | m | t]; simpl; trivial.
  - now destruct x, y.
  - apply Z.eqb_sym.
  - apply String.eqb_sym.
Qed.

Lemma b2z_inj (x y : bool) : Z.b2z x = Z.b2z y -> x = y.
Proof. destruct x, y; simpl; congruence. Qed.

Lemma py_eqb_trans (a b c : hval) :
  py_eqb a b = true -> py_eqb b c = true -> py_eqb a c = true.
Proof.
  destruct a, b, c; simpl; try discriminate; trivial;
    rewrite ?Z.eqb_eq, ?Bool.eqb_true_iff, ?String.eqb_eq;
    intros; subst; trivial.
  - auto using b2z_inj.
Qed.

Lemma key_eqb_refl (k : mkey) : key_eqb k k = true.
Proof. destruct k; simpl; auto using py_eqb_refl. Qed.

Lemma key_eqb_sym (a b : mkey) : key_eqb a b = key_eqb b a.
Proof. destruct a, b; simpl; auto using py_eqb_sym. Qed.

Lemma key_eqb_trans (a b c : mkey) :
  key_eqb a b = true -> key_eqb b c = true -> key_eqb a c = true.
Proof.
  destruct a, b, c; simpl; try discriminate; eauto using py_eqb_trans.
Qed.

(** Keys equal to a common key are equal to the same keys. *)
Lemma key_eqb_congr (a b c : mkey) :
  key_eqb a b = true -> key_eqb a c = key_eqb b c.
Proof.
  intros Hab.
  destruct (key_eqb b c) eqn:Hbc.
  - eauto using key_eqb_trans.
  - destruct (key_eqb a c) eqn:Hac; trivial.
    rewrite key_eqb_sym in Hab.
    rewrite <- Hbc. symmetry. eauto using key_eqb_trans.
Qed.

End Equality.

(** ** The dict operations *)

Section DictFacts.
Context {V : Type}.
Implicit Types (k : mkey) (v : V) (d : dict V).

Lemma getitem_contains k d :
  contains k d = true <-> exists v, getitem k d = Some v.
Proof.
  induction d as [ | [k' v'] d IH]; simpl.
  - split; [discriminate | intros [v Hv]; discriminate].
  - destruct (key_eqb k' k); simpl; [ | exact IH].
    split; eauto.
Qed.

Lemma getitem_None k d : contains k d = false <-> getitem k d = None.
Proof.
  pose proof (getitem_contains k d) as [H1 H2].
  destruct (contains k d), (getitem k d) as [v | ];
    split; intros; try discriminate; trivial.
  - destruct H1 as [x Hx]; trivial. discriminate.
  - discriminate H2; eauto.
Qed.

Lemma getitem_setitem k v d : getitem k (setitem k v d) = Some v.
Proof.
  induction d as [ | [k' v'] d IH]; simpl.
  - now rewrite key_eqb_refl.
  - destruct (key_eqb k' k) eqn:E; simpl; now rewrite E.
Qed.

Lemma getitem_setitem_other k k' v d :
  key_eqb k k' = false -> getitem k' (setitem k v d) = getitem k' d.
Proof.
  intros Hne.
  induction d as [ | [k0 v0] d IH]; simpl.
  - now rewrite Hne.
  - destruct (key_eqb k0 k) eqn:E; simpl.
    + rewrite (key_eqb_congr _ _ k' E), Hne. trivial.
    + now rewrite IH.
Qed.

Lemma contains_setitem k k' v d :
  contains k' (setitem k v d) = contains k' d || key_eqb k k'.
Proof.
  induction d as [ | [k0 v0] d IH]; simpl.
  - now rewrite orb_false_r.
  - destruct (key_eqb k0 k) eqn:E; simpl.
    + rewrite <- (key_eqb_congr _ _ k' E).
      destruct (key_eqb k0 k'); simpl; trivial.
      now rewrite orb_false_r.
    + rewrite IH. now rewrite orb_assoc.
Qed.

Lemma wf_setitem k v d : wf d -> wf (setitem k v d).
Proof.
  induction 1 as [ | k0 v0 d Hk0 Hd IH]; simpl.
  - constructor; [reflexivity | constructor].
  - destruct (key_eqb k0 k) eqn:E.
    + now constructor.
    + constructor; trivial.
      rewrite contains_setitem, Hk0. simpl.
      now rewrite key_eqb_sym.
Qed.

Lemma contains_congr k k' d :
  key_eqb k k' = true -> contains k d = contains k' d.
Proof.
  intros E. unfold contains.
  induction d as [ | [k0 v0] d IH]; simpl; trivial.
  rewrite IH. f_equal.
  rewrite (key_eqb_sym k0 k), (key_eqb_sym k0 k').
  now apply key_eqb_congr.
Qed.

Lemma count_absent k d : contains k d = false -> count k d = 0%nat.
Proof.
  unfold count, contains.
  induction d as [ | [k0 v0] d IH]; simpl; trivial.
  intros [H1 H2]%orb_false_elim.
  rewrite H1. auto.
Qed.

(** In a well-formed dict a key is stored at most once. *)
Lemma count_wf k d : wf d -> (count k d <= 1)%nat.
Proof.
  induction 1 as [ | k0 v0 d Hk0 Hd IH]; [unfold count; simpl; lia | ].
  unfold count in *. simpl.
  destruct (key_eqb k0 k) eqn:E; trivial.
  simpl. fold (count k d).
  rewrite count_absent; [lia | ].
  now rewrite <- (contains_congr _ _ d E).
Qed.

Lemma count_present k d : contains k d = true -> (1 <= count k d)%nat.
Proof.
  unfold count, contains.
  induction d as [ | [k0 v0] d IH]; simpl; [discriminate | ].
  destruct (key_eqb k0 k); simpl; [lia | auto].
Qed.

End DictFacts.

(** ** Stepping through the monad *)

Section Steps.

Lemma deref_valid w self d :
  heap w !! self = Some d -> deref self w = (Return d, w).
Proof. intros H. unfold deref. now rewrite H. Qed.

Lemma deref_invalid w self :
  heap w !! self = None ->
  deref self w = (Raise (SystemError "invalid reference"), w).
Proof. intros H. unfold deref. now rewrite H. Qed.

Lemma set_link_valid w self d k h :
  heap w !! self = Some d ->
  Dispatcher._set_link self k h w =
    (Return tt,
     {| heap := <[self := with_mapping d (setitem k h (_mapping d))]> (heap w);
        calls := calls w |}).
Proof.
  intros H.
  unfold Dispatcher._set_link, mapping_setitem, bind.
  now rewrite (deref_valid _ _ _ H).
Qed.

Lemma set_link_invalid w self k h :
  heap w !! self = None ->
  Dispatcher._set_link self k h w =
    (Raise (SystemError "invalid reference"), w).
Proof.
  intros H.
  unfold Dispatcher._set_link, mapping_setitem, bind.
  now rewrite (deref_invalid _ _ H).
Qed.

(** Reading back an object that was just written. *)
Lemma heap_written (l : list Dispatcher) self d d' :
  l !! self = Some d -> <[self := d']> l !! self = Some d'.
Proof.
  intros H. apply list_lookup_insert_eq.
  now apply lookup_lt_Some in H.
Qed.

Lemma mapping_of_valid w self d :
  heap w !! self = Some d -> mapping_of w self = _mapping d.
Proof. intros H. unfold mapping_of. now rewrite H. Qed.

End Steps.

(** Unfolds one call of the dispatch layer down to store reads. *)
Ltac run_call :=
  unfold Dispatcher.__get__, Dispatcher.match_, Dispatcher.nomatch,
    bind, lift, ret, raise, invoke; simpl.

(** ** Dispatch *)

Section Dispatch.

Variables (w : world) (self : loc) (d : Dispatcher).
Hypothesis Hself : heap w !! self = Some d.

Variables (instance instance_type first : pyobj).
Variables (rest : list pyobj) (kw : kwargs).

Lemma get_resolved (V : hval) (k : mkey) (h : handler) :
  _contains d first (_key d) = Return true ->
  _getter d first = Return V ->
  (if negb (contains (KVal V) (_mapping d)) then
     if negb (contains _NOMATCH (_mapping d)) then None else Some _NOMATCH
   else Some (KVal V)) = Some k ->
  getitem k (_mapping d) = Some h ->
  Dispatcher.__get__ self instance instance_type (first :: rest) kw w =
    (fn_body h instance first rest kw, called w h instance first rest kw).
Proof.
  intros Hhas Hget Hk Hh.
  run_call. rewrite (deref_valid _ _ _ Hself), Hhas. simpl.
  rewrite (deref_valid _ _ _ Hself), Hget. simpl.
  rewrite (deref_valid _ _ _ Hself).
  destruct (contains (KVal V) (_mapping d)); simpl in *.
  - injection Hk as <-. rewrite (deref_valid _ _ _ Hself), Hh.
    now rewrite drop_0.
  - destruct (contains _NOMATCH (_mapping d)); simpl in *; [ | discriminate].
    injection Hk as <-. rewrite (deref_valid _ _ _ Hself), Hh.
    now rewrite drop_0.
Qed.

End Dispatch.

(** ** Registration *)

Section Registration.

Lemma init_spec (w : world) (key value : hval) (h : handler)
    (getter : pyobj -> outcome hval) (has : pyobj -> hval -> outcome bool) :
  Dispatcher.__init__ key value h getter has w =
    (Return (length (heap w)),
     {| heap := heap w ++ [{| _key := key; _mapping := [(KVal value, h)];
                              _getter := getter; _contains := has |}];
        calls := calls w |}).
Proof.
  unfold Dispatcher.__init__, bind, alloc, ret.
  erewrite set_link_valid; simpl.
  2: { rewrite lookup_app_r by lia. now rewrite Nat.sub_diag. }
  rewrite insert_app_r_alt by lia.
  now rewrite Nat.sub_diag.
Qed.

Lemma match_fresh (w : world) (self : loc) (d : Dispatcher)
    (value : hval) (method : handler) :
  heap w !! self = Some d ->
  contains (KVal value) (_mapping d) = false ->
  Dispatcher.match_ self value method w =
    (Return self,
     {| heap := <[self := with_mapping d
                            (setitem (KVal value) method (_mapping d))]>
                  (heap w);
        calls := calls w |}).
Proof.
  intros Hself Hnew. run_call.
  rewrite (deref_valid _ _ _ Hself), Hnew.
  now rewrite (set_link_valid _ _ _ _ _ Hself).
Qed.

Lemma match_duplicate (w : world) (self : loc) (d : Dispatcher)
    (value : hval) (method : handler) :
  heap w !! self = Some d ->
  contains (KVal value) (_mapping d) = true ->
  Dispatcher.match_ self value method w =
    (Raise (DuplicateHandlerError value), w).
Proof.
  intros Hself Hold. run_call.
  now rewrite (deref_valid _ _ _ Hself), Hold.
Qed.

Lemma match_invalid (w : world) (self : loc) (value : hval)
    (method : handler) :
  heap w !! self = None ->
  Dispatcher.match_ self value method w =
    (Raise (SystemError "invalid reference"), w).
Proof. intros Hself. run_call. now rewrite (deref_invalid _ _ Hself). Qed.

(** A call of [match] that raises has written nothing. *)
Lemma match_raise_frame (w w' : world) (self : loc) (value : hval)
    (method : handler) (e : exn) :
  Dispatcher.match_ self value method w = (Raise e, w') -> w' = w.
Proof.
  destruct (heap w !! self) as [d | ] eqn:Hself.
  - destruct (contains (KVal value) (_mapping d)) eqn:Hin.
    + rewrite (match_duplicate _ _ _ _ _ Hself Hin). congruence.
    + rewrite (match_fresh _ _ _ _ _ Hself Hin). discriminate.
  - rewrite (match_invalid _ _ _ _ Hself). congruence.
Qed.

Lemma nomatch_valid (w : world) (self : loc) (d : Dispatcher)
    (method : handler) :
  heap w !! self = Some d ->
  Dispatcher.nomatch self method w =
    (Return self,
     {| heap := <[self := with_mapping d
                            (setitem _NOMATCH method (_mapping d))]> (heap w);
        calls := calls w |}).
Proof.
  intros Hself. run_call.
  now rewrite (set_link_valid _ _ _ _ _ Hself).
Qed.

Lemma nomatch_invalid (w : world) (self : loc) (method : handler) :
  heap w !! self = None ->
  Dispatcher.nomatch self method w =
    (Raise (SystemError "invalid reference"), w).
Proof.
  intros Hself. run_call. now rewrite (set_link_invalid _ _ _ _ Hself).
Qed.

(** A dispatch call writes to no object. *)
Lemma get_heap (w : world) (self : loc) (instance instance_type : pyobj)
    (args : list pyobj) (kw : kwargs) :
  heap (snd (Dispatcher.__get__ self instance instance_type args kw w)) =
  heap w.
Proof.
  run_call. unfold deref.
  repeat (case_match; simpl in *; simplify_eq; trivial).
Qed.

End Registration.

(** ** Scripts: what every operation preserves *)

Section Scripts.

Lemma evolves_refl d : evolves d d.
Proof. repeat split; trivial. Qed.

Lemma evolves_trans d1 d2 d3 : evolves d1 d2 -> evolves d2 d3 -> evolves d1 d3.
Proof.
  intros (K1 & G1 & C1 & W1) (K2 & G2 & C2 & W2).
  repeat split; try congruence. auto.
Qed.

Lemma evolves_setitem d k h :
  evolves d (with_mapping d (setitem k h (_mapping d))).
Proof. repeat split; simpl; trivial. apply wf_setitem. Qed.

(** Writing an evolved object at [target] keeps every object evolving. *)
Lemma written_evolves (l : list Dispatcher) (target self : loc) d dt dt' :
  l !! self = Some d -> l !! target = Some dt -> evolves dt dt' ->
  exists d', <[target := dt']> l !! self = Some d' /\ evolves d d'.
Proof.
  intros Hself Htarget Hev.
  destruct (decide (target = self)) as [-> | Hne].
  - exists dt'. split; [eauto using heap_written | congruence].
  - exists d. split; [ | apply evolves_refl].
    now rewrite list_lookup_insert_ne.
Qed.

Lemma run_op_evolves (w : world) (target : loc) (o : op) (self : loc) d :
  heap w !! self = Some d ->
  exists d', heap (snd (run_op target o w)) !! self = Some d' /\ evolves d d'.
Proof.
  intros Hself.
  destruct o as [value method | method | instance instance_type args kw];
    unfold run_op, bind at 1.
  - destruct (heap w !! target) as [dt | ] eqn:Htarget.
    + destruct (contains (KVal value) (_mapping dt)) eqn:Hin.
      * rewrite (match_duplicate _ _ _ _ _ Htarget Hin). simpl.
        eauto using evolves_refl.
      * rewrite (match_fresh _ _ _ _ _ Htarget Hin). simpl.
        eauto using written_evolves, evolves_setitem.
    + rewrite (match_invalid _ _ _ _ Htarget). simpl.
      eauto using evolves_refl.
  - destruct (heap w !! target) as [dt | ] eqn:Htarget.
    + rewrite (nomatch_valid _ _ _ _ Htarget). simpl.
      eauto using written_evolves, evolves_setitem.
    + rewrite (nomatch_invalid _ _ _ Htarget). simpl.
      eauto using evolves_refl.
  - pose proof (get_heap w target instance instance_type args kw) as Hheap.
    destruct (Dispatcher.__get__ target instance instance_type args kw w)
      as [[r | e] w']; simpl in *; rewrite Hheap; eauto using evolves_refl.
Qed.

Lemma exec_evolves (script : list (loc * op)) (w : world) (self : loc) d :
  heap w !! self = Some d ->
  exists d', heap (exec script w) !! self = Some d' /\ evolves d d'.
Proof.
  revert w d.
  induction script as [ | [target o] script IH]; intros w d Hself; simpl.
  - eauto using evolves_refl.
  - destruct (run_op_evolves w target o self d Hself) as (d1 & H1 & E1).
    destruct (IH _ _ H1) as (d2 & H2 & E2).
    eauto using evolves_trans.
Qed.

(** The object behind a reference returned by [__init__]. *)
Lemma init_object (w w1 : world) (key value : hval) (h : handler)
    (getter : pyobj -> outcome hval) (has : pyobj -> hval -> outcome bool)
    (self : loc) :
  Dispatcher.__init__ key value h getter has w = (Return self, w1) ->
  self = length (heap w) /\
  heap w1 !! self = Some {| _key := key; _mapping := [(KVal value, h)];
                            _getter := getter; _contains := has |}.
Proof.
  rewrite init_spec. intros [= <- <-]. split; trivial. simpl.
  rewrite lookup_app_r by lia. now rewrite Nat.sub_diag.
Qed.

End Scripts.

(** ** The doctests *)

Section Doctests.
Import Doctest.

Lemma loaded_heap : heap loaded = [key_cases; attr_cases].
Proof. reflexivity. Qed.

Example doctest_key_value_2 :
  fst (Dispatcher.__get__ 0%nat fk fk
         [keyed "value-2"; OVal (DStr "args2")]
         [("kwargs2", OVal (DBool true))] loaded)
  = Return (OTuple [OVal (DBool true); OTuple [OVal (DStr "args2")];
                    ODict [(DStr "kwargs2", OVal (DBool true))]]).
Proof. reflexivity. Qed.

Example doctest_key_default :
  fst (Dispatcher.__get__ 0%nat fk fk
         [keyed "value-4"; OVal (DStr "args4")]
         [("kwargs4", OVal (DBool true))] loaded)
  = Return (OTuple [OVal (DBool false); keyed "value-4";
                    OTuple [OVal (DStr "args4")];
                    ODict [(DStr "kwargs4", OVal (DBool true))]]).
Proof. reflexivity. Qed.

Example doctest_attr_value_3 :
  fst (Dispatcher.__get__ 1%nat fa fa [Data "value-3" "value-3"] [] loaded)
  = Return (OTuple [OVal (DBool true); OTuple []; ODict []]).
Proof. reflexivity. Qed.

Example doctest_no_first_argument :
  fst (Dispatcher.__get__ 1%nat fa fa [] [] loaded)
  = Raise (TypeError
      "Dispatcher expect at least one positional argument for matching").
Proof. reflexivity. Qed.

Example doctest_no_matching_key :
  fst (Dispatcher.__get__ 0%nat fk fk
         [ODict [(DStr "value", OVal (DStr "tests"))]] [] loaded)
  = Raise (ValueError
      ("First argument doesn't contains key " ++ dq ++ "key" ++ dq)).
Proof. reflexivity. Qed.

Example doctest_no_match_case :
  fst (Dispatcher.__get__ 1%nat fa fa [Data "value-4" "value-4"] [] loaded)
  = Raise (TypeError
      ("Handler for " ++ dq ++ "value-4" ++ dq ++ " is not registered")).
Proof. reflexivity. Qed.

End Doctests.

(** ** Properties of the dispatch entry point *)

(** C1. When the subject carries the discriminant and the value extracted
    from it has a registered handler [H], the dispatch call is exactly one
    call of [H] on the instance, the subject, the remaining positional
    arguments and the keyword arguments, and its outcome is [H]'s outcome,
    untouched. *)
Theorem dispatch_registered
    (w : world) (self : loc) (d : Dispatcher)
    (instance instance_type first : pyobj) (rest : list pyobj) (kw : kwargs)
    (V : hval) (H : handler) :
  heap w !! self = Some d ->
  _contains d first (_key d) = Return true ->
  _getter d first = Return V ->
  getitem (KVal V) (_mapping d) = Some H ->
  Dispatcher.__get__ self instance instance_type (first :: rest) kw w =
    (fn_body H instance first rest kw, called w H instance first rest kw).
Proof.
  intros Hself Hhas Hget HH.
  apply (get_resolved w self d Hself _ _ _ _ _ V (KVal V)); trivial.
  assert (contains (KVal V) (_mapping d) = true) as ->
    by (apply getitem_contains; eauto).
  reflexivity.
Qed.

Lemma dispatch_registered_witness :
  heap Doctest.loaded !! 1%nat = Some Doctest.attr_cases /\
  Dispatcher.__get__ 1%nat Doctest.fa Doctest.fa
    [Doctest.Data "value-2" "value-2"; OVal (DInt 7)] [] Doctest.loaded =
    (Return (OTuple [OVal (DBool true); OTuple [OVal (DInt 7)]; ODict []]),
     called Doctest.loaded (Doctest.case 6 "value-2") Doctest.fa
       (Doctest.Data "value-2" "value-2") [OVal (DInt 7)] []).
Proof.
  split; [reflexivity | ].
  apply (dispatch_registered Doctest.loaded 1%nat Doctest.attr_cases
           Doctest.fa Doctest.fa (Doctest.Data "value-2" "value-2")
           [OVal (DInt 7)] [] (DStr "value-2") (Doctest.case 6 "value-2"));
    reflexivity.
Defined.

(** C2. When a default handler [D] is registered and the value extracted
    from the subject is not itself registered, the dispatch call is one
    call of [D] on the instance, the subject and the remaining arguments. *)
Theorem dispatch_default
    (w : world) (self : loc) (d : Dispatcher)
    (instance instance_type first : pyobj) (rest : list pyobj) (kw : kwargs)
    (V : hval) (D : handler) :
  heap w !! self = Some d ->
  _contains d first (_key d) = Return true ->
  _getter d first = Return V ->
  contains (KVal V) (_mapping d) = false ->
  getitem _NOMATCH (_mapping d) = Some D ->
  Dispatcher.__get__ self instance instance_type (first :: rest) kw w =
    (fn_body D instance first rest kw, called w D instance first rest kw).
Proof.
  intros Hself Hhas Hget Hnew HD.
  apply (get_resolved w self d Hself _ _ _ _ _ V _NOMATCH); trivial.
  rewrite Hnew. simpl.
  assert (contains _NOMATCH (_mapping d) = true) as ->
    by (apply getitem_contains; eauto).
  reflexivity.
Qed.

Lemma dispatch_default_witness :
  contains (KVal (DStr "value-4")) (_mapping Doctest.key_cases) = false /\
  Dispatcher.__get__ 0%nat Doctest.fk Doctest.fk
    [Doctest.keyed "value-4"] [("b", OVal (DInt 1))] Doctest.loaded =
    (Return (OTuple [OVal (DBool false); Doctest.keyed "value-4"; OTuple [];
                     ODict [(DStr "b", OVal (DInt 1))]]),
     called Doctest.loaded (Doctest.fallback 4) Doctest.fk
       (Doctest.keyed "value-4") [] [("b", OVal (DInt 1))]).
Proof.
  split; [reflexivity | ].
  apply (dispatch_default Doctest.loaded 0%nat Doctest.key_cases
           Doctest.fk Doctest.fk (Doctest.keyed "value-4") []
           [("b", OVal (DInt 1))] (DStr "value-4") (Doctest.fallback 4));
    reflexivity.
Defined.

(** C3. Without a default handler, a subject that carries the discriminant
    but whose extracted value is not registered makes the dispatch call
    raise the unregistered-handler error naming that value; the store is
    left as it was, so no handler has been called. *)
Theorem dispatch_unregistered
    (w : world) (self : loc) (d : Dispatcher)
    (instance instance_type first : pyobj) (rest : list pyobj) (kw : kwargs)
    (V : hval) :
  heap w !! self = Some d ->
  _contains d first (_key d) = Return true ->
  _getter d first = Return V ->
  contains (KVal V) (_mapping d) = false ->
  contains _NOMATCH (_mapping d) = false ->
  Dispatcher.__get__ self instance instance_type (first :: rest) kw w =
    (Raise (UnregisteredHandlerError V), w).
Proof.
  intros Hself Hhas Hget Hnew Hnodefault.
  run_call. rewrite (deref_valid _ _ _ Hself), Hhas. simpl.
  rewrite (deref_valid _ _ _ Hself), Hget. simpl.
  rewrite (deref_valid _ _ _ Hself), Hnew, Hnodefault. reflexivity.
Qed.

Lemma dispatch_unregistered_witness :
  contains _NOMATCH (_mapping Doctest.attr_cases) = false /\
  Dispatcher.__get__ 1%nat Doctest.fa Doctest.fa
    [Doctest.Data "value-4" "value-4"] [] Doctest.loaded =
    (Raise (UnregisteredHandlerError (DStr "value-4")), Doctest.loaded).
Proof.
  split; [reflexivity | ].
  apply (dispatch_unregistered Doctest.loaded 1%nat Doctest.attr_cases
           Doctest.fa Doctest.fa (Doctest.Data "value-4" "value-4") [] []
           (DStr "value-4")); reflexivity.
Defined.

(** C5. A dispatch call without positional arguments raises the
    missing-subject error whatever the keyword arguments are.  Nothing of
    the registry is read on the way: the outcome is the same for every
    reference and every store, and the store is left as it was. *)
Theorem dispatch_no_subject
    (w : world) (self : loc) (instance instance_type : pyobj) (kw : kwargs) :
  Dispatcher.__get__ self instance instance_type [] kw w =
    (Raise MissingSubjectError, w).
Proof. reflexivity. Qed.

(** C6. A subject for which the contains test answers [False] makes the
    dispatch call raise the missing-discriminant error naming the configured
    key.  Neither the getter nor the mapping is constrained: the same holds
    when a default handler is registered, and when the getter would fail. *)
Theorem dispatch_missing_discriminant
    (w : world) (self : loc) (d : Dispatcher)
    (instance instance_type first : pyobj) (rest : list pyobj) (kw : kwargs) :
  heap w !! self = Some d ->
  _contains d first (_key d) = Return false ->
  Dispatcher.__get__ self instance instance_type (first :: rest) kw w =
    (Raise (MissingDiscriminantError (_key d)), w).
Proof.
  intros Hself Hhas.
  run_call. now rewrite (deref_valid _ _ _ Hself), Hhas.
Qed.

Lemma dispatch_missing_discriminant_witness :
  getitem _NOMATCH (_mapping Doctest.key_cases) = Some (Doctest.fallback 4) /\
  Dispatcher.__get__ 0%nat Doctest.fk Doctest.fk
    [ODict [(DStr "value", OVal (DStr "tests"))]] [] Doctest.loaded =
    (Raise (MissingDiscriminantError (DStr "key")), Doctest.loaded).
Proof.
  split; [reflexivity | ].
  apply (dispatch_missing_discriminant Doctest.loaded 0%nat Doctest.key_cases
           Doctest.fk Doctest.fk (ODict [(DStr "value", OVal (DStr "tests"))])
           [] []); reflexivity.
Defined.

(** ** Properties of registration *)

(** C4. [match] on a value that is already registered, the value given at
    construction included, values being compared with [==], raises the
    duplicate-handler error.  Two registries do not conflict: [__init__]
    gives each registry a mapping of its own, so the same value can be
    given to both at construction and added to both afterwards. *)
Theorem addCase_duplicate_rejected :
  (forall w self d value method,
     heap w !! self = Some d ->
     contains (KVal value) (_mapping d) = true ->
     Dispatcher.match_ self value method w =
       (Raise (DuplicateHandlerError value), w)) /\
  (forall w w1 key first_value h getter has self value method,
     Dispatcher.__init__ key first_value h getter has w = (Return self, w1) ->
     py_eqb first_value value = true ->
     Dispatcher.match_ self value method w1 =
       (Raise (DuplicateHandlerError value), w1)) /\
  (forall w key1 key2 value h1 h2 getter1 getter2 has1 has2,
     exists s1 s2 w1 w2,
       Dispatcher.__init__ key1 value h1 getter1 has1 w = (Return s1, w1) /\
       Dispatcher.__init__ key2 value h2 getter2 has2 w1 = (Return s2, w2) /\
       s1 <> s2 /\
       mapping_of w2 s1 = [(KVal value, h1)] /\
       mapping_of w2 s2 = [(KVal value, h2)]) /\
  (forall w s1 s2 d1 d2 value m1 m2,
     s1 <> s2 ->
     heap w !! s1 = Some d1 ->
     heap w !! s2 = Some d2 ->
     contains (KVal value) (_mapping d1) = false ->
     contains (KVal value) (_mapping d2) = false ->
     exists w1 w2,
       Dispatcher.match_ s1 value m1 w = (Return s1, w1) /\
       Dispatcher.match_ s2 value m2 w1 = (Return s2, w2) /\
       getitem (KVal value) (mapping_of w2 s1) = Some m1 /\
       getitem (KVal value) (mapping_of w2 s2) = Some m2).
Proof.
  split; [ | split; [ | split]].
  - intros. now apply match_duplicate with d.
  - intros w w1 key first_value h getter has self value method Hinit Heq.
    apply init_object in Hinit as [_ Hself].
    apply (match_duplicate _ _ _ _ _ Hself).
    simpl. now rewrite Heq.
  - intros w key1 key2 value h1 h2 getter1 getter2 has1 has2.
    do 4 eexists. rewrite !init_spec.
    split; [reflexivity | split; [reflexivity | ] ].
    simpl. rewrite length_app. simpl.
    split; [lia | ].
    unfold mapping_of. simpl. split.
    + rewrite lookup_app_l by (rewrite length_app; simpl; lia).
      rewrite lookup_app_r by lia. now rewrite Nat.sub_diag.
    + rewrite lookup_app_r by (rewrite length_app; simpl; lia).
      rewrite length_app. simpl.
      now replace (length (heap w) + 1 - (length (heap w) + 1))%nat with 0%nat
        by lia.
  - intros w s1 s2 d1 d2 value m1 m2 Hne H1 H2 Hnew1 Hnew2.
    do 2 eexists.
    rewrite (match_fresh _ _ _ _ _ H1 Hnew1).
    split; [reflexivity | ].
    erewrite match_fresh; [ | simpl; rewrite list_lookup_insert_ne; eauto | trivial].
    split; [reflexivity | ].
    unfold mapping_of. simpl. split.
    + rewrite list_lookup_insert_ne by auto.
      erewrite heap_written by eauto. simpl. apply getitem_setitem.
    + erewrite heap_written
        by (rewrite list_lookup_insert_ne; eauto).
      simpl. apply getitem_setitem.
Qed.

Lemma addCase_duplicate_rejected_witness :
  Dispatcher.match_ 0%nat (DStr "value-2") (Doctest.fallback 8) Doctest.loaded
    = (Raise (DuplicateHandlerError (DStr "value-2")), Doctest.loaded) /\
  Dispatcher.match_ 0%nat (DInt 1) (Doctest.fallback 8)
    (snd (Dispatcher.__init__ (DStr "key") (DBool true) (Doctest.fallback 0)
            (PyBuiltins.itemgetter (DStr "key")) PyBuiltins.operator_contains
            empty_world))
    = (Raise (DuplicateHandlerError (DInt 1)),
       snd (Dispatcher.__init__ (DStr "key") (DBool true) (Doctest.fallback 0)
              (PyBuiltins.itemgetter (DStr "key"))
              PyBuiltins.operator_contains empty_world)) /\
  exists w1 w2,
    Dispatcher.match_ 0%nat (DStr "value-9") (Doctest.case 8 "value-9")
      Doctest.loaded = (Return 0%nat, w1) /\
    Dispatcher.match_ 1%nat (DStr "value-9") (Doctest.case 9 "value-9") w1
      = (Return 1%nat, w2) /\
    getitem (KVal (DStr "value-9")) (mapping_of w2 0%nat)
      = Some (Doctest.case 8 "value-9") /\
    getitem (KVal (DStr "value-9")) (mapping_of w2 1%nat)
      = Some (Doctest.case 9 "value-9").
Proof.
  split; [ | split].
  - apply (proj1 addCase_duplicate_rejected
             Doctest.loaded 0%nat Doctest.key_cases); reflexivity.
  - apply (proj1 (proj2 addCase_duplicate_rejected)
             empty_world _ (DStr "key") (DBool true) (Doctest.fallback 0)
             (PyBuiltins.itemgetter (DStr "key")) PyBuiltins.operator_contains
             0%nat); reflexivity.
  - apply (proj2 (proj2 (proj2 addCase_duplicate_rejected))
             Doctest.loaded 0%nat 1%nat Doctest.key_cases Doctest.attr_cases);
      solve [reflexivity | discriminate].
Defined.

(** C10. When [match] raises the duplicate-handler error, the store is the
    one it was called in: the mapping of the registry (and of every other
    registry) is left exactly as it was. *)
Theorem addCase_failure_writes_nothing
    (w w' : world) (self : loc) (value : hval) (method : handler) :
  Dispatcher.match_ self value method w =
    (Raise (DuplicateHandlerError value), w') ->
  w' = w /\ mapping_of w' self = mapping_of w self.
Proof.
  intros Hraise. apply match_raise_frame in Hraise. now subst.
Qed.

Lemma addCase_failure_writes_nothing_witness :
  let r := Dispatcher.match_ 1%nat (DStr "value-3") (Doctest.fallback 8)
             Doctest.loaded in
  fst r = Raise (DuplicateHandlerError (DStr "value-3")) /\
  snd r = Doctest.loaded /\
  mapping_of (snd r) 1%nat = mapping_of Doctest.loaded 1%nat.
Proof.
  split; [reflexivity | ].
  exact (addCase_failure_writes_nothing Doctest.loaded
           (snd (Dispatcher.match_ 1%nat (DStr "value-3") (Doctest.fallback 8)
                   Doctest.loaded))
           1%nat (DStr "value-3") (Doctest.fallback 8) eq_refl).
Defined.

(** C8. [nomatch] never raises on a registry, whatever was registered
    before, an earlier default included.  A registry built by [__init__]
    and then used by any script holds at most one default handler; after
    two calls of [nomatch] the default is the second handler, it is the
    only one, and the handlers registered for values are the same. *)
Theorem addDefault_last_write_wins
    (w w1 : world) (key value : hval) (h : handler)
    (getter : pyobj -> outcome hval) (has : pyobj -> hval -> outcome bool)
    (self : loc) (script : list (loc * op)) (h1 h2 : handler) :
  Dispatcher.__init__ key value h getter has w = (Return self, w1) ->
  let w2 := exec script w1 in
  (count _NOMATCH (mapping_of w2 self) <= 1)%nat /\
  exists w3 w4,
    Dispatcher.nomatch self h1 w2 = (Return self, w3) /\
    Dispatcher.nomatch self h2 w3 = (Return self, w4) /\
    getitem _NOMATCH (mapping_of w3 self) = Some h1 /\
    getitem _NOMATCH (mapping_of w4 self) = Some h2 /\
    count _NOMATCH (mapping_of w4 self) = 1%nat /\
    forall v, getitem (KVal v) (mapping_of w4 self) =
              getitem (KVal v) (mapping_of w2 self).
Proof.
  intros Hinit w2.
  apply init_object in Hinit as [_ Hself].
  destruct (exec_evolves script w1 self _ Hself) as (d2 & H2 & _ & _ & _ & Hwf).
  fold w2 in H2.
  assert (wf (_mapping d2)) as Hwf2.
  { apply Hwf. simpl. constructor; [reflexivity | constructor]. }
  split.
  { rewrite (mapping_of_valid _ _ _ H2). now apply count_wf. }
  do 2 eexists.
  rewrite (nomatch_valid _ _ _ _ H2).
  split; [reflexivity | ].
  set (d3 := with_mapping d2 (setitem _NOMATCH h1 (_mapping d2))).
  assert (<[self := d3]> (heap w2) !! self = Some d3) as H3
    by eauto using heap_written.
  erewrite nomatch_valid by exact H3.
  split; [reflexivity | ].
  unfold mapping_of. simpl. rewrite H3, H2.
  erewrite heap_written by exact H3. simpl.
  split; [apply getitem_setitem | ].
  split; [apply getitem_setitem | ].
  split.
  - apply Nat.le_antisymm.
    + apply count_wf. now do 2 apply wf_setitem.
    + apply count_present. rewrite contains_setitem. apply orb_true_r.
  - intros v. now rewrite !getitem_setitem_other.
Qed.

Lemma addDefault_last_write_wins_witness :
  let w1 := snd (Dispatcher.__init__ (DStr "key") (DStr "value-1")
                   (Doctest.case 1 "value-1")
                   (PyBuiltins.itemgetter (DStr "key"))
                   PyBuiltins.operator_contains empty_world) in
  let w2 := exec [(0%nat, AddDefault (Doctest.fallback 2));
                  (0%nat, AddCase (DStr "value-2") (Doctest.case 3 "value-2"))]
              w1 in
  (count _NOMATCH (mapping_of w2 0%nat) <= 1)%nat /\
  exists w3 w4,
    Dispatcher.nomatch 0%nat (Doctest.fallback 4) w2 = (Return 0%nat, w3) /\
    Dispatcher.nomatch 0%nat (Doctest.fallback 5) w3 = (Return 0%nat, w4) /\
    getitem _NOMATCH (mapping_of w3 0%nat) = Some (Doctest.fallback 4) /\
    getitem _NOMATCH (mapping_of w4 0%nat) = Some (Doctest.fallback 5) /\
    count _NOMATCH (mapping_of w4 0%nat) = 1%nat /\
    forall v, getitem (KVal v) (mapping_of w4 0%nat) =
              getitem (KVal v) (mapping_of w2 0%nat).
Proof.
  exact (addDefault_last_write_wins empty_world _ (DStr "key") (DStr "value-1")
           (Doctest.case 1 "value-1") (PyBuiltins.itemgetter (DStr "key"))
           PyBuiltins.operator_contains 0%nat
           [(0%nat, AddDefault (Doctest.fallback 2));
            (0%nat, AddCase (DStr "value-2") (Doctest.case 3 "value-2"))]
           (Doctest.fallback 4) (Doctest.fallback 5) eq_refl).
Defined.

(** C9. The key, the getter and the contains test given to [__init__] are
    those of the registry after any script of [match], [nomatch] and
    dispatch calls, on this registry or on any other. *)
Theorem configuration_is_immutable
    (w w1 : world) (key value : hval) (h : handler)
    (getter : pyobj -> outcome hval) (has : pyobj -> hval -> outcome bool)
    (self : loc) (script : list (loc * op)) :
  Dispatcher.__init__ key value h getter has w = (Return self, w1) ->
  configured (exec script w1) self key getter has.
Proof.
  intros Hinit.
  apply init_object in Hinit as [_ Hself].
  destruct (exec_evolves script w1 self _ Hself) as (d & Hd & K & G & C & _).
  exists d. simpl in *. auto.
Qed.

Lemma configuration_is_immutable_witness :
  configured
    (exec [(0%nat, AddCase (DStr "value-2") (Doctest.case 2 "value-2"));
           (0%nat, AddCase (DStr "value-2") (Doctest.case 3 "value-2"));
           (0%nat, AddDefault (Doctest.fallback 4));
           (0%nat, Dispatch Doctest.fk Doctest.fk [Doctest.keyed "value-2"] []);
           (0%nat, Dispatch Doctest.fk Doctest.fk [] [])]
       (snd (Dispatcher.__init__ (DStr "key") (DStr "value-1")
               (Doctest.case 1 "value-1")
               (PyBuiltins.itemgetter (DStr "key"))
               PyBuiltins.operator_contains empty_world)))
    0%nat (DStr "key") (PyBuiltins.itemgetter (DStr "key"))
    PyBuiltins.operator_contains.
Proof.
  exact (configuration_is_immutable empty_world _ (DStr "key") (DStr "value-1")
           (Doctest.case 1 "value-1") (PyBuiltins.itemgetter (DStr "key"))
           PyBuiltins.operator_contains 0%nat _ eq_refl).
Defined.

(** ** The factory *)

(** C7, as stated, fails: with both [key] and [attr] supplied no error is
    raised, a key-mode registry is built. *)
Lemma dispatcher_accepts_key_and_attr :
  PyBuiltins.dispatcher (DStr "attr") (DStr "key") (DStr "value-1")
    (Doctest.case 1 "value-1") empty_world =
    (Return 0%nat,
     {| heap := [{| _key := DStr "key";
                    _mapping := [(KVal (DStr "value-1"),
                                  Doctest.case 1 "value-1")];
                    _getter := PyBuiltins.itemgetter (DStr "key");
                    _contains := PyBuiltins.operator_contains |}];
        calls := [] |}) /\
  fst (PyBuiltins.dispatcher (DStr "attr") (DStr "key") (DStr "value-1")
         (Doctest.case 1 "value-1") empty_world) <> Raise ConfigurationError.
Proof. split; [reflexivity | discriminate]. Qed.

(** C7, amended.  With neither [key] nor [attr] supplied the factory raises
    the configuration error and builds nothing.  With a true [key] it
    builds a key-mode registry, whether [attr] is supplied or not; with no
    true [key] and a true [attr] that [attrgetter] accepts, it builds an
    attribute-mode registry. *)
Theorem dispatcher_configuration
    (itemgetter : hval -> pyobj -> outcome hval)
    (operator_contains : pyobj -> hval -> outcome bool)
    (attrgetter : hval -> outcome (pyobj -> outcome hval))
    (hasattr : pyobj -> hval -> outcome bool)
    (attr key value : hval) (method : handler) (w : world) :
  let build := dispatcher itemgetter operator_contains attrgetter hasattr in
  (key = DNone -> attr = DNone ->
   build attr key value method w = (Raise ConfigurationError, w)) /\
  (truthy key = true ->
   exists self w',
     build attr key value method w = (Return self, w') /\
     configured w' self key (itemgetter key) operator_contains /\
     mapping_of w' self = [(KVal value, method)]) /\
  (truthy key = false -> truthy attr = true ->
   forall getter, attrgetter attr = Return getter ->
   exists self w',
     build attr key value method w = (Return self, w') /\
     configured w' self attr getter hasattr /\
     mapping_of w' self = [(KVal value, method)]).
Proof.
  assert (forall k g c,
            exists self w',
              Dispatcher.__init__ k value method g c w = (Return self, w') /\
              configured w' self k g c /\
              mapping_of w' self = [(KVal value, method)]) as Hbuilt.
  { intros k g c.
    destruct (Dispatcher.__init__ k value method g c w) as [r w'] eqn:Hinit.
    pose proof Hinit as Hspec. rewrite init_spec in Hspec.
    injection Hspec as <- _.
    apply init_object in Hinit as [_ Hself].
    exists (length (heap w)), w'. split; trivial. split.
    - eexists; split; [exact Hself | simpl; auto].
    - unfold mapping_of. now rewrite Hself. }
  intros build. unfold build, dispatcher. split; [ | split].
  - intros -> ->. reflexivity.
  - intros ->. apply Hbuilt.
  - intros -> -> getter ->. unfold bind, lift. apply Hbuilt.
Qed.

Lemma dispatcher_configuration_witness :
  PyBuiltins.dispatcher DNone DNone (DStr "value-1")
    (Doctest.case 1 "value-1") empty_world =
    (Raise ConfigurationError, empty_world) /\
  (exists self w',
     PyBuiltins.dispatcher (DStr "attr") (DStr "key") (DStr "value-1")
       (Doctest.case 1 "value-1") empty_world = (Return self, w') /\
     configured w' self (DStr "key") (PyBuiltins.itemgetter (DStr "key"))
       PyBuiltins.operator_contains /\
     mapping_of w' self = [(KVal (DStr "value-1"), Doctest.case 1 "value-1")]) /\
  (exists getter,
     PyBuiltins.attrgetter (DStr "attr") = Return getter /\
     exists self w',
       PyBuiltins.dispatcher (DStr "attr") DNone (DStr "value-1")
         (Doctest.case 1 "value-1") empty_world = (Return self, w') /\
       configured w' self (DStr "attr") getter PyBuiltins.hasattr /\
       mapping_of w' self =
         [(KVal (DStr "value-1"), Doctest.case 1 "value-1")]).
Proof.
  split; [ | split].
  - apply (proj1 (dispatcher_configuration PyBuiltins.itemgetter
                    PyBuiltins.operator_contains PyBuiltins.attrgetter
                    PyBuiltins.hasattr DNone DNone (DStr "value-1")
                    (Doctest.case 1 "value-1") empty_world)); reflexivity.
  - apply (proj1 (proj2 (dispatcher_configuration PyBuiltins.itemgetter
                    PyBuiltins.operator_contains PyBuiltins.attrgetter
                    PyBuiltins.hasattr (DStr "attr") (DStr "key")
                    (DStr "value-1") (Doctest.case 1 "value-1") empty_world)));
      reflexivity.
  - eexists. split; [reflexivity | ].
    apply (proj2 (proj2 (dispatcher_configuration PyBuiltins.itemgetter
                    PyBuiltins.operator_contains PyBuiltins.attrgetter
                    PyBuiltins.hasattr (DStr "attr") DNone
                    (DStr "value-1") (Doctest.case 1 "value-1") empty_world)));
      reflexivity.
Defined.

(** * Further properties *)

(** ** The dispatch call, path by path *)

Section DispatchPaths.

Lemma getitem_congr {V : Type} (k k' : mkey) (d : dict V) :
  key_eqb k k' = true -> getitem k d = getitem k' d.
Proof.
  intros E.
  induction d as [ | [k0 v0] d IH]; simpl; trivial.
  rewrite IH.
  rewrite (key_eqb_sym k0 k), (key_eqb_sym k0 k').
  now rewrite (key_eqb_congr _ _ k0 E).
Qed.

Variables (w : world) (self : loc) (d : Dispatcher).
Hypothesis Hself : heap w !! self = Some d.

Variables (instance instance_type first : pyobj).
Variables (rest : list pyobj) (kw : kwargs).

(** The wrapper on a non-empty argument list, read off the object. *)
Lemma get_unfold :
  Dispatcher.__get__ self instance instance_type (first :: rest) kw w =
    match _contains d first (_key d) with
    | Raise e => (Raise e, w)
    | Return false => (Raise (MissingDiscriminantError (_key d)), w)
    | Return true =>
        match _getter d first with
        | Raise e => (Raise e, w)
        | Return value =>
            match selected (_mapping d) value with
            | Some h => (fn_body h instance first rest kw,
                         called w h instance first rest kw)
            | None => (Raise (UnregisteredHandlerError value), w)
            end
        end
    end.
Proof.
  run_call. rewrite (deref_valid _ _ _ Hself).
  destruct (_contains d first (_key d)) as [[ | ] | e]; simpl; trivial.
  rewrite (deref_valid _ _ _ Hself).
  destruct (_getter d first) as [value | e]; simpl; trivial.
  rewrite (deref_valid _ _ _ Hself). unfold selected.
  destruct (getitem (KVal value) (_mapping d)) as [h | ] eqn:Hv.
  - assert (contains (KVal value) (_mapping d) = true) as ->
      by (apply getitem_contains; eauto).
    simpl. rewrite (deref_valid _ _ _ Hself), Hv. now rewrite drop_0.
  - apply getitem_None in Hv. rewrite Hv. simpl.
    destruct (getitem _NOMATCH (_mapping d)) as [h | ] eqn:Hd.
    + assert (contains _NOMATCH (_mapping d) = true) as ->
        by (apply getitem_contains; eauto).
      simpl. rewrite (deref_valid _ _ _ Hself), Hd. now rewrite drop_0.
    + apply getitem_None in Hd. now rewrite Hd.
Qed.

End DispatchPaths.

(** X1. The wrapper has no exception handler around the two strategies: an
    exception raised by the contains test, or by the getter once the
    contains test has passed, leaves the dispatch call as it is; no handler
    is called and the store is the one before the call. *)
Theorem dispatch_strategy_error_propagates
    (w : world) (self : loc) (d : Dispatcher)
    (instance instance_type first : pyobj) (rest : list pyobj) (kw : kwargs)
    (e : exn) :
  heap w !! self = Some d ->
  _contains d first (_key d) = Raise e \/
  (_contains d first (_key d) = Return true /\ _getter d first = Raise e) ->
  Dispatcher.__get__ self instance instance_type (first :: rest) kw w =
    (Raise e, w).
Proof.
  intros Hself Hraise.
  rewrite (get_unfold w self d Hself).
  destruct Hraise as [-> | [-> ->]]; reflexivity.
Qed.

Lemma dispatch_strategy_error_propagates_witness :
  Dispatcher.__get__ 0%nat Doctest.fk Doctest.fk [OVal (DInt 5)] []
    Doctest.loaded
    = (Raise (TypeError "argument is not iterable"), Doctest.loaded) /\
  Dispatcher.__get__ 0%nat Doctest.fk Doctest.fk
    [ODict [(DStr "key", ODict [])]; OVal (DInt 1)] [] Doctest.loaded
    = (Raise (TypeError "unhashable type"), Doctest.loaded).
Proof.
  split.
  - apply (dispatch_strategy_error_propagates Doctest.loaded 0%nat
             Doctest.key_cases Doctest.fk Doctest.fk (OVal (DInt 5)) [] []);
      [reflexivity | left; reflexivity].
  - apply (dispatch_strategy_error_propagates Doctest.loaded 0%nat
             Doctest.key_cases Doctest.fk Doctest.fk
             (ODict [(DStr "key", ODict [])]) [OVal (DInt 1)] []);
      [reflexivity | right; split; reflexivity].
Defined.

(** X2. Whatever the arguments, a dispatch call on a registry does one of
    two things: it raises with the store untouched, or it calls exactly one
    handler, one that is stored in the registry's mapping, on the instance,
    the first argument, the remaining arguments and the keyword arguments,
    and ends as that handler ends.  It never writes to a registry. *)
Theorem dispatch_calls_one_stored_handler_or_none
    (w : world) (self : loc) (d : Dispatcher)
    (instance instance_type : pyobj) (args : list pyobj) (kw : kwargs) :
  heap w !! self = Some d ->
  (exists e,
     Dispatcher.__get__ self instance instance_type args kw w = (Raise e, w))
  \/
  (exists first rest k h,
     args = first :: rest /\
     getitem k (_mapping d) = Some h /\
     Dispatcher.__get__ self instance instance_type args kw w =
       (fn_body h instance first rest kw,
        called w h instance first rest kw)).
Proof.
  intros Hself.
  destruct args as [ | first rest]; [left; eexists; reflexivity | ].
  rewrite (get_unfold w self d Hself).
  destruct (_contains d first (_key d)) as [[ | ] | e]; eauto.
  destruct (_getter d first) as [value | e]; eauto.
  unfold selected.
  destruct (getitem (KVal value) (_mapping d)) as [h | ] eqn:Hv.
  - right. exists first, rest, (KVal value), h. auto.
  - destruct (getitem _NOMATCH (_mapping d)) as [h | ] eqn:Hd; eauto.
    right. exists first, rest, _NOMATCH, h. auto.
Qed.

Lemma dispatch_calls_one_stored_handler_or_none_witness :
  (exists e,
     Dispatcher.__get__ 1%nat Doctest.fa Doctest.fa
       [Doctest.Data "value-1" "value-1"] [] Doctest.loaded
     = (Raise e, Doctest.loaded))
  \/
  (exists first rest k h,
     [Doctest.Data "value-1" "value-1"] = first :: rest /\
     getitem k (_mapping Doctest.attr_cases) = Some h /\
     Dispatcher.__get__ 1%nat Doctest.fa Doctest.fa
       [Doctest.Data "value-1" "value-1"] [] Doctest.loaded =
       (fn_body h Doctest.fa first rest [],
        called Doctest.loaded h Doctest.fa first rest [])).
Proof.
  exact (dispatch_calls_one_stored_handler_or_none Doctest.loaded 1%nat
           Doctest.attr_cases Doctest.fa Doctest.fa
           [Doctest.Data "value-1" "value-1"] [] eq_refl).
Defined.

(** X3. Registration then dispatch.  After [match] has accepted a handler
    for a value, a dispatch call whose subject yields that value, or any
    value equal to it under [==], is a call of that handler. *)
Theorem match_then_dispatch
    (w : world) (self : loc) (d : Dispatcher) (value : hval)
    (method : handler)
    (instance instance_type first : pyobj) (rest : list pyobj) (kw : kwargs)
    (V : hval) :
  heap w !! self = Some d ->
  contains (KVal value) (_mapping d) = false ->
  _contains d first (_key d) = Return true ->
  _getter d first = Return V ->
  py_eqb value V = true ->
  exists w1,
    Dispatcher.match_ self value method w = (Return self, w1) /\
    Dispatcher.__get__ self instance instance_type (first :: rest) kw w1 =
      (fn_body method instance first rest kw,
       called w1 method instance first rest kw).
Proof.
  intros Hself Hnew Hhas Hget Heq.
  eexists. rewrite (match_fresh _ _ _ _ _ Hself Hnew).
  split; [reflexivity | ].
  erewrite get_unfold by (simpl; eauto using heap_written).
  simpl. rewrite Hhas, Hget. unfold selected.
  rewrite <- (getitem_congr (KVal value) (KVal V)) by exact Heq.
  now rewrite getitem_setitem.
Qed.

Lemma match_then_dispatch_witness :
  exists w1,
    Dispatcher.match_ 0%nat (DInt 1) (Doctest.case 8 "one") Doctest.loaded
      = (Return 0%nat, w1) /\
    Dispatcher.__get__ 0%nat Doctest.fk Doctest.fk
      [ODict [(DStr "key", OVal (DBool true))]] [] w1 =
      (fn_body (Doctest.case 8 "one") Doctest.fk
         (ODict [(DStr "key", OVal (DBool true))]) [] [],
       called w1 (Doctest.case 8 "one") Doctest.fk
         (ODict [(DStr "key", OVal (DBool true))]) [] []).
Proof.
  apply (match_then_dispatch Doctest.loaded 0%nat Doctest.key_cases (DInt 1)
           (Doctest.case 8 "one") Doctest.fk Doctest.fk
           (ODict [(DStr "key", OVal (DBool true))]) [] [] (DBool true));
    reflexivity.
Defined.

(** ** What scripts keep *)

Section ScriptInvariants.

(** A relation between the states of one object that holds across the two
    writes of the module holds across every operation and every script. *)
Variable R : Dispatcher -> Dispatcher -> Prop.
Hypothesis R_refl : forall d, R d d.
Hypothesis R_trans : forall d1 d2 d3, R d1 d2 -> R d2 d3 -> R d1 d3.
Hypothesis R_match : forall d value method,
  contains (KVal value) (_mapping d) = false ->
  R d (with_mapping d (setitem (KVal value) method (_mapping d))).
Hypothesis R_nomatch : forall d method,
  R d (with_mapping d (setitem _NOMATCH method (_mapping d))).

Lemma written_related (l : list Dispatcher) (target self : loc) d dt dt' :
  l !! self = Some d -> l !! target = Some dt -> R dt dt' ->
  exists d', <[target := dt']> l !! self = Some d' /\ R d d'.
Proof.
  intros Hself Htarget Hrel.
  destruct (decide (target = self)) as [-> | Hne].
  - exists dt'. split; [eauto using heap_written | congruence].
  - exists d. split; [now rewrite list_lookup_insert_ne | apply R_refl].
Qed.

Lemma run_op_related (w : world) (target : loc) (o : op) (self : loc) d :
  heap w !! self = Some d ->
  exists d', heap (snd (run_op target o w)) !! self = Some d' /\ R d d'.
Proof.
  intros Hself.
  destruct o as [value method | method | instance instance_type args kw];
    unfold run_op, bind at 1.
  - destruct (heap w !! target) as [dt | ] eqn:Htarget.
    + destruct (contains (KVal value) (_mapping dt)) eqn:Hin.
      * rewrite (match_duplicate _ _ _ _ _ Htarget Hin). simpl. eauto.
      * rewrite (match_fresh _ _ _ _ _ Htarget Hin). simpl.
        eauto using written_related.
    + rewrite (match_invalid _ _ _ _ Htarget). simpl. eauto.
  - destruct (heap w !! target) as [dt | ] eqn:Htarget.
    + rewrite (nomatch_valid _ _ _ _ Htarget). simpl.
      eauto using written_related.
    + rewrite (nomatch_invalid _ _ _ Htarget). simpl. eauto.
  - pose proof (get_heap w target instance instance_type args kw) as Hheap.
    destruct (Dispatcher.__get__ target instance instance_type args kw w)
      as [[r | e] w']; simpl in *; rewrite Hheap; eauto.
Qed.

Lemma exec_related (script : list (loc * op)) (w : world) (self : loc) d :
  heap w !! self = Some d ->
  exists d', heap (exec script w) !! self = Some d' /\ R d d'.
Proof.
  revert w d.
  induction script as [ | [target o] script IH]; intros w d Hself; simpl.
  - eauto.
  - destruct (run_op_related w target o self d Hself) as (d1 & H1 & E1).
    destruct (IH _ _ H1) as (d2 & H2 & E2). eauto.
Qed.

End ScriptInvariants.

Section Growth.

(** A fresh key is equal to no key that is present. *)
Lemma fresh_key_differs {V : Type} (k k' : mkey) (m : dict V) :
  contains k m = false -> contains k' m = true -> key_eqb k k' = false.
Proof.
  intros Hnew Hold.
  destruct (key_eqb k k') eqn:E; trivial.
  rewrite (contains_congr _ _ m E) in Hnew. congruence.
Qed.

(** The two writes keep what is stored for values, and every key. *)
Lemma exec_grows (script : list (loc * op)) (w : world) (self : loc) d :
  heap w !! self = Some d ->
  exists d',
    heap (exec script w) !! self = Some d' /\
    (forall v h, getitem (KVal v) (_mapping d) = Some h ->
                 getitem (KVal v) (_mapping d') = Some h) /\
    (forall k, contains k (_mapping d) = true ->
               contains k (_mapping d') = true).
Proof.
  apply (exec_related
           (fun d d' =>
              (forall v h, getitem (KVal v) (_mapping d) = Some h ->
                           getitem (KVal v) (_mapping d') = Some h) /\
              (forall k, contains k (_mapping d) = true ->
                         contains k (_mapping d') = true))).
  - auto.
  - intros d1 d2 d3 [G1 C1] [G2 C2]. split; auto.
  - intros d0 value method Hnew. simpl. split.
    + intros v h Hv. rewrite getitem_setitem_other; trivial.
      apply (fresh_key_differs _ _ _ Hnew).
      apply getitem_contains. eauto.
    + intros k Hk. rewrite contains_setitem, Hk. reflexivity.
  - intros d0 method. simpl. split.
    + intros v h Hv. now rewrite getitem_setitem_other.
    + intros k Hk. rewrite contains_setitem, Hk. reflexivity.
Qed.

End Growth.

(** X4. A handler registered for a value is there for good: after any
    script of [match], [nomatch] and dispatch calls, on this registry or on
    others, the value still has that same handler.  [match] refuses to
    replace it and [nomatch] writes to the default slot only. *)
Theorem registered_handler_is_permanent
    (w : world) (self : loc) (d : Dispatcher) (value : hval) (h : handler)
    (script : list (loc * op)) :
  heap w !! self = Some d ->
  getitem (KVal value) (_mapping d) = Some h ->
  getitem (KVal value) (mapping_of (exec script w) self) = Some h.
Proof.
  intros Hself Hh.
  destruct (exec_grows script w self d Hself) as (d' & Hd' & Hkeep & _).
  rewrite (mapping_of_valid _ _ _ Hd'). auto.
Qed.

Lemma registered_handler_is_permanent_witness :
  getitem (KVal (DStr "value-2"))
    (mapping_of
       (exec [(0%nat, AddCase (DStr "value-2") (Doctest.fallback 8));
              (0%nat, AddDefault (Doctest.fallback 9));
              (1%nat, AddCase (DStr "value-5") (Doctest.fallback 8));
              (0%nat, Dispatch Doctest.fk Doctest.fk
                        [Doctest.keyed "value-2"] [])]
          Doctest.loaded) 0%nat)
  = Some (Doctest.case 2 "value-2").
Proof.
  apply (registered_handler_is_permanent Doctest.loaded 0%nat
           Doctest.key_cases (DStr "value-2") (Doctest.case 2 "value-2"));
    reflexivity.
Defined.

(** X5. No operation removes an entry: a key of the mapping, the default
    slot included, is still a key of the mapping after any script. *)
Theorem keys_are_never_removed
    (w : world) (self : loc) (d : Dispatcher) (k : mkey)
    (script : list (loc * op)) :
  heap w !! self = Some d ->
  contains k (_mapping d) = true ->
  contains k (mapping_of (exec script w) self) = true.
Proof.
  intros Hself Hk.
  destruct (exec_grows script w self d Hself) as (d' & Hd' & _ & Hkeep).
  rewrite (mapping_of_valid _ _ _ Hd'). auto.
Qed.

Lemma keys_are_never_removed_witness :
  contains _NOMATCH
    (mapping_of
       (exec [(0%nat, AddCase (DStr "value-7") (Doctest.fallback 8));
              (0%nat, AddDefault (Doctest.fallback 9))]
          Doctest.loaded) 0%nat)
  = true.
Proof.
  apply (keys_are_never_removed Doctest.loaded 0%nat Doctest.key_cases);
    reflexivity.
Defined.

(** X6. In a registry built by [__init__] and then used by any script,
    every key is stored at most once: no two entries of the mapping have
    keys that are equal under [==]. *)
Theorem mapping_keys_stay_distinct
    (w w1 : world) (key value : hval) (h : handler)
    (getter : pyobj -> outcome hval) (has : pyobj -> hval -> outcome bool)
    (self : loc) (script : list (loc * op)) (k : mkey) :
  Dispatcher.__init__ key value h getter has w = (Return self, w1) ->
  wf (mapping_of (exec script w1) self) /\
  (count k (mapping_of (exec script w1) self) <= 1)%nat.
Proof.
  intros Hinit.
  apply init_object in Hinit as [_ Hself].
  destruct (exec_evolves script w1 self _ Hself) as (d & Hd & _ & _ & _ & Hwf).
  rewrite (mapping_of_valid _ _ _ Hd).
  assert (wf (_mapping d)) as Hd_wf.
  { apply Hwf. simpl. constructor; [reflexivity | constructor]. }
  split; [trivial | now apply count_wf].
Qed.

Lemma mapping_keys_stay_distinct_witness :
  let w1 := snd (Dispatcher.__init__ (DStr "key") (DInt 1)
                   (Doctest.case 1 "one")
                   (PyBuiltins.itemgetter (DStr "key"))
                   PyBuiltins.operator_contains empty_world) in
  let w2 := exec [(0%nat, AddCase (DBool true) (Doctest.case 2 "true"));
                  (0%nat, AddCase (DInt 1) (Doctest.case 3 "one"));
                  (0%nat, AddCase (DInt 2) (Doctest.case 4 "two"))] w1 in
  wf (mapping_of w2 0%nat) /\
  (count (KVal (DBool true)) (mapping_of w2 0%nat) <= 1)%nat.
Proof.
  exact (mapping_keys_stay_distinct empty_world _ (DStr "key") (DInt 1)
           (Doctest.case 1 "one") (PyBuiltins.itemgetter (DStr "key"))
           PyBuiltins.operator_contains 0%nat
           [(0%nat, AddCase (DBool true) (Doctest.case 2 "true"));
            (0%nat, AddCase (DInt 1) (Doctest.case 3 "one"));
            (0%nat, AddCase (DInt 2) (Doctest.case 4 "two"))]
           (KVal (DBool true)) eq_refl).
Defined.

(** ** What a dispatch call depends on *)

Section Extensionality.

(** The outcome and the log of a dispatch call are determined by the key,
    the strategies and the lookups of the mapping; the order of the
    entries plays no part. *)
Lemma get_lookup_ext (w w' : world) (self : loc) (d d' : Dispatcher)
    (instance instance_type : pyobj) (args : list pyobj) (kw : kwargs) :
  heap w !! self = Some d ->
  heap w' !! self = Some d' ->
  _key d = _key d' -> _getter d = _getter d' -> _contains d = _contains d' ->
  (forall k, getitem k (_mapping d) = getitem k (_mapping d')) ->
  calls w = calls w' ->
  fst (Dispatcher.__get__ self instance instance_type args kw w) =
  fst (Dispatcher.__get__ self instance instance_type args kw w') /\
  calls (snd (Dispatcher.__get__ self instance instance_type args kw w)) =
  calls (snd (Dispatcher.__get__ self instance instance_type args kw w')).
Proof.
  intros Hd Hd' HK HG HC HM Hcalls.
  destruct args as [ | first rest]; [simpl; auto | ].
  rewrite (get_unfold w self d Hd), (get_unfold w' self d' Hd').
  rewrite <- HK, <- HG, <- HC.
  destruct (_contains d first (_key d)) as [[ | ] | e]; simpl; auto.
  destruct (_getter d first) as [value | e]; simpl; auto.
  unfold selected. rewrite <- !HM.
  repeat case_match; unfold called; simpl; rewrite ?Hcalls; auto.
Qed.

Lemma getitem_setitem_swap {V : Type} (k1 k2 k : mkey) (v1 v2 : V)
    (m : dict V) :
  key_eqb k1 k2 = false ->
  getitem k (setitem k2 v2 (setitem k1 v1 m)) =
  getitem k (setitem k1 v1 (setitem k2 v2 m)).
Proof.
  intros Hne.
  assert (key_eqb k2 k1 = false) as Hne' by now rewrite key_eqb_sym.
  destruct (key_eqb k2 k) eqn:E2.
  - rewrite <- !(getitem_congr k2 k) by exact E2.
    rewrite getitem_setitem.
    rewrite getitem_setitem_other by exact Hne.
    now rewrite getitem_setitem.
  - rewrite getitem_setitem_other by exact E2.
    destruct (key_eqb k1 k) eqn:E1.
    + rewrite <- !(getitem_congr k1 k) by exact E1.
      now rewrite !getitem_setitem.
    + now rewrite !getitem_setitem_other.
Qed.

Lemma run_op_frame (w : world) (target : loc) (o : op) (self : loc) :
  target <> self ->
  heap (snd (run_op target o w)) !! self = heap w !! self.
Proof.
  intros Hne.
  destruct o as [value method | method | instance instance_type args kw];
    unfold run_op, bind at 1.
  - destruct (heap w !! target) as [dt | ] eqn:Htarget.
    + destruct (contains (KVal value) (_mapping dt)) eqn:Hin.
      * now rewrite (match_duplicate _ _ _ _ _ Htarget Hin).
      * rewrite (match_fresh _ _ _ _ _ Htarget Hin). simpl.
        now rewrite list_lookup_insert_ne.
    + now rewrite (match_invalid _ _ _ _ Htarget).
  - destruct (heap w !! target) as [dt | ] eqn:Htarget.
    + rewrite (nomatch_valid _ _ _ _ Htarget). simpl.
      now rewrite list_lookup_insert_ne.
    + now rewrite (nomatch_invalid _ _ _ Htarget).
  - pose proof (get_heap w target instance instance_type args kw) as Hheap.
    destruct (Dispatcher.__get__ target instance instance_type args kw w)
      as [[r | e] w']; simpl in *; now rewrite Hheap.
Qed.

End Extensionality.

(** X7. The order of registration does not matter to dispatch.  Two values
    that are new to a registry and different from each other can be added
    in either order: both orders succeed, and every dispatch call then has
    the same outcome and calls the same handler in both. *)
Theorem registration_order_is_irrelevant
    (w : world) (self : loc) (d : Dispatcher) (v1 v2 : hval)
    (m1 m2 : handler)
    (instance instance_type : pyobj) (args : list pyobj) (kw : kwargs) :
  heap w !! self = Some d ->
  contains (KVal v1) (_mapping d) = false ->
  contains (KVal v2) (_mapping d) = false ->
  py_eqb v1 v2 = false ->
  exists w12 w21,
    (Dispatcher.match_ self v1 m1 ;; Dispatcher.match_ self v2 m2) w
      = (Return self, w12) /\
    (Dispatcher.match_ self v2 m2 ;; Dispatcher.match_ self v1 m1) w
      = (Return self, w21) /\
    fst (Dispatcher.__get__ self instance instance_type args kw w12) =
    fst (Dispatcher.__get__ self instance instance_type args kw w21) /\
    calls (snd (Dispatcher.__get__ self instance instance_type args kw w12)) =
    calls (snd (Dispatcher.__get__ self instance instance_type args kw w21)).
Proof.
  intros Hself Hnew1 Hnew2 Hne.
  assert (py_eqb v2 v1 = false) as Hne' by now rewrite py_eqb_sym.
  do 2 eexists. unfold bind at 1 2.
  rewrite (match_fresh _ _ _ _ _ Hself Hnew1).
  rewrite (match_fresh _ _ _ _ _ Hself Hnew2).
  erewrite match_fresh;
    [ | simpl; eauto using heap_written
      | simpl; rewrite contains_setitem, Hnew2; simpl; exact Hne].
  split; [reflexivity | ].
  erewrite match_fresh;
    [ | simpl; eauto using heap_written
      | simpl; rewrite contains_setitem, Hnew1; simpl; exact Hne'].
  split; [reflexivity | ].
  eapply get_lookup_ext.
  - simpl. eapply heap_written, heap_written, Hself.
  - simpl. eapply heap_written, heap_written, Hself.
  - reflexivity.
  - reflexivity.
  - reflexivity.
  - intros k. simpl. apply getitem_setitem_swap. exact Hne.
  - reflexivity.
Qed.

Lemma registration_order_is_irrelevant_witness :
  exists w12 w21,
    (Dispatcher.match_ 1%nat (DStr "value-4") (Doctest.case 8 "value-4") ;;
     Dispatcher.match_ 1%nat (DStr "value-5") (Doctest.case 9 "value-5"))
      Doctest.loaded = (Return 1%nat, w12) /\
    (Dispatcher.match_ 1%nat (DStr "value-5") (Doctest.case 9 "value-5") ;;
     Dispatcher.match_ 1%nat (DStr "value-4") (Doctest.case 8 "value-4"))
      Doctest.loaded = (Return 1%nat, w21) /\
    fst (Dispatcher.__get__ 1%nat Doctest.fa Doctest.fa
           [Doctest.Data "value-5" "value-5"] [] w12) =
    fst (Dispatcher.__get__ 1%nat Doctest.fa Doctest.fa
           [Doctest.Data "value-5" "value-5"] [] w21) /\
    calls (snd (Dispatcher.__get__ 1%nat Doctest.fa Doctest.fa
                  [Doctest.Data "value-5" "value-5"] [] w12)) =
    calls (snd (Dispatcher.__get__ 1%nat Doctest.fa Doctest.fa
                  [Doctest.Data "value-5" "value-5"] [] w21)).
Proof.
  apply (registration_order_is_irrelevant Doctest.loaded 1%nat
           Doctest.attr_cases (DStr "value-4") (DStr "value-5")
           (Doctest.case 8 "value-4") (Doctest.case 9 "value-5")
           Doctest.fa Doctest.fa [Doctest.Data "value-5" "value-5"] []);
    reflexivity.
Defined.

(** ** Independence and composition *)

Section Independence.

Lemma exec_frame (script : list (loc * op)) (w : world) (self : loc) :
  Forall (fun step => fst step <> self) script ->
  heap (exec script w) !! self = heap w !! self.
Proof.
  intros Hother. revert w.
  induction Hother as [ | [target o] script Hne _ IH]; intros w; simpl;
    [reflexivity | ].
  rewrite IH. now apply run_op_frame.
Qed.

(** The outcome of a dispatch call is determined by the object behind the
    reference. *)
Lemma get_object_ext (w w' : world) (self : loc)
    (instance instance_type : pyobj) (args : list pyobj) (kw : kwargs) :
  heap w !! self = heap w' !! self ->
  fst (Dispatcher.__get__ self instance instance_type args kw w) =
  fst (Dispatcher.__get__ self instance instance_type args kw w').
Proof.
  intros Hsame.
  destruct args as [ | first rest]; [reflexivity | ].
  destruct (heap w' !! self) as [d | ] eqn:Hd'.
  - rewrite (get_unfold w self d Hsame), (get_unfold w' self d Hd').
    repeat case_match; reflexivity.
  - run_call. now rewrite (deref_invalid _ _ Hsame), (deref_invalid _ _ Hd').
Qed.

End Independence.

(** X8. Registries are independent objects: a script that works on other
    registries only, registering cases and defaults and dispatching, leaves
    this registry as it was, and every dispatch call on it has the outcome
    it would have had before the script. *)
Theorem other_registries_are_untouched
    (w : world) (self : loc) (script : list (loc * op))
    (instance instance_type : pyobj) (args : list pyobj) (kw : kwargs) :
  Forall (fun step => fst step <> self) script ->
  heap (exec script w) !! self = heap w !! self /\
  fst (Dispatcher.__get__ self instance instance_type args kw (exec script w))
  = fst (Dispatcher.__get__ self instance instance_type args kw w).
Proof.
  intros Hother.
  pose proof (exec_frame script w self Hother) as Hsame.
  split; [exact Hsame | now apply get_object_ext].
Qed.

Lemma other_registries_are_untouched_witness :
  let script := [(0%nat, AddCase (DStr "value-4") (Doctest.case 8 "value-4"));
                 (0%nat, AddDefault (Doctest.fallback 9));
                 (0%nat, Dispatch Doctest.fk Doctest.fk
                           [Doctest.keyed "value-4"] [])] in
  heap (exec script Doctest.loaded) !! 1%nat = heap Doctest.loaded !! 1%nat /\
  fst (Dispatcher.__get__ 1%nat Doctest.fa Doctest.fa
         [Doctest.Data "value-4" "value-4"] [] (exec script Doctest.loaded))
  = fst (Dispatcher.__get__ 1%nat Doctest.fa Doctest.fa
           [Doctest.Data "value-4" "value-4"] [] Doctest.loaded).
Proof.
  apply (other_registries_are_untouched Doctest.loaded 1%nat
           [(0%nat, AddCase (DStr "value-4") (Doctest.case 8 "value-4"));
            (0%nat, AddDefault (Doctest.fallback 9));
            (0%nat, Dispatch Doctest.fk Doctest.fk
                      [Doctest.keyed "value-4"] [])]
           Doctest.fa Doctest.fa [Doctest.Data "value-4" "value-4"] []).
  repeat constructor; simpl; lia.
Defined.

(** X9. Default then dispatch.  [nomatch] always installs its handler,
    replacing an earlier default if there is one; from then on a dispatch
    call whose subject yields a value with no handler of its own is a call
    of that handler. *)
Theorem nomatch_then_dispatch
    (w : world) (self : loc) (d : Dispatcher) (method : handler)
    (instance instance_type first : pyobj) (rest : list pyobj) (kw : kwargs)
    (V : hval) :
  heap w !! self = Some d ->
  _contains d first (_key d) = Return true ->
  _getter d first = Return V ->
  contains (KVal V) (_mapping d) = false ->
  exists w1,
    Dispatcher.nomatch self method w = (Return self, w1) /\
    Dispatcher.__get__ self instance instance_type (first :: rest) kw w1 =
      (fn_body method instance first rest kw,
       called w1 method instance first rest kw).
Proof.
  intros Hself Hhas Hget Hnew.
  eexists. rewrite (nomatch_valid _ _ _ _ Hself).
  split; [reflexivity | ].
  erewrite get_unfold by (simpl; eauto using heap_written).
  simpl. rewrite Hhas, Hget. unfold selected.
  rewrite getitem_setitem_other by reflexivity.
  apply getitem_None in Hnew. rewrite Hnew.
  now rewrite getitem_setitem.
Qed.

Lemma nomatch_then_dispatch_witness :
  exists w1,
    Dispatcher.nomatch 0%nat (Doctest.fallback 9) Doctest.loaded
      = (Return 0%nat, w1) /\
    Dispatcher.__get__ 0%nat Doctest.fk Doctest.fk
      [Doctest.keyed "value-4"; OVal (DInt 3)] [] w1 =
      (fn_body (Doctest.fallback 9) Doctest.fk (Doctest.keyed "value-4")
         [OVal (DInt 3)] [],
       called w1 (Doctest.fallback 9) Doctest.fk (Doctest.keyed "value-4")
         [OVal (DInt 3)] []).
Proof.
  apply (nomatch_then_dispatch Doctest.loaded 0%nat Doctest.key_cases
           (Doctest.fallback 9) Doctest.fk Doctest.fk
           (Doctest.keyed "value-4") [OVal (DInt 3)] [] (DStr "value-4"));
    reflexivity.
Defined.

(** ** The factory, end to end *)

(** X10. The factory tests the truth value of [key] and [attr], not their
    presence: a key or an attribute name that is false in Python's sense
    (the empty string, [0], [False], as well as [None]) counts as not
    given.  With both false the factory raises the configuration error and
    builds nothing. *)
Theorem dispatcher_false_names_are_absent
    (itemgetter : hval -> pyobj -> outcome hval)
    (operator_contains : pyobj -> hval -> outcome bool)
    (attrgetter : hval -> outcome (pyobj -> outcome hval))
    (hasattr : pyobj -> hval -> outcome bool)
    (attr key value : hval) (method : handler) (w : world) :
  truthy key = false ->
  truthy attr = false ->
  dispatcher itemgetter operator_contains attrgetter hasattr
    attr key value method w = (Raise ConfigurationError, w).
Proof. intros Hkey Hattr. unfold dispatcher. now rewrite Hkey, Hattr. Qed.

Lemma dispatcher_false_names_are_absent_witness :
  PyBuiltins.dispatcher (DStr EmptyString) (DInt 0) (DStr "value-1")
    (Doctest.case 1 "value-1") Doctest.loaded
  = (Raise ConfigurationError, Doctest.loaded).
Proof.
  apply (dispatcher_false_names_are_absent PyBuiltins.itemgetter
           PyBuiltins.operator_contains PyBuiltins.attrgetter
           PyBuiltins.hasattr (DStr EmptyString) (DInt 0) (DStr "value-1")
           (Doctest.case 1 "value-1") Doctest.loaded); reflexivity.
Defined.

(** X11. Construction then dispatch.  The function decorated by
    [dispatcher] is the handler of the value given to the factory: in key
    mode, on the registry the factory returns, a dispatch call whose
    subject passes the library's contains test and yields a value equal to
    that value is a call of the decorated function.  The registries that
    existed before are still what they were. *)
Theorem construct_then_dispatch
    (itemgetter : hval -> pyobj -> outcome hval)
    (operator_contains : pyobj -> hval -> outcome bool)
    (attrgetter : hval -> outcome (pyobj -> outcome hval))
    (hasattr : pyobj -> hval -> outcome bool)
    (attr key value : hval) (method : handler) (w : world)
    (instance instance_type first : pyobj) (rest : list pyobj) (kw : kwargs)
    (V : hval) :
  truthy key = true ->
  operator_contains first key = Return true ->
  itemgetter key first = Return V ->
  py_eqb value V = true ->
  exists self w1,
    dispatcher itemgetter operator_contains attrgetter hasattr
      attr key value method w = (Return self, w1) /\
    Dispatcher.__get__ self instance instance_type (first :: rest) kw w1 =
      (fn_body method instance first rest kw,
       called w1 method instance first rest kw) /\
    forall other d, heap w !! other = Some d -> heap w1 !! other = Some d.
Proof.
  intros Hkey Hhas Hget Heq.
  unfold dispatcher. rewrite Hkey.
  destruct (Dispatcher.__init__ key value method (itemgetter key)
              operator_contains w) as [r w1] eqn:Hinit.
  pose proof Hinit as Hspec. rewrite init_spec in Hspec.
  injection Hspec as <- Hw1.
  apply init_object in Hinit as [_ Hself].
  exists (length (heap w)), w1.
  split; [reflexivity | split].
  - rewrite (get_unfold w1 _ _ Hself). simpl.
    rewrite Hhas, Hget. unfold selected. simpl. now rewrite Heq.
  - intros other d Hother. subst w1. simpl.
    now apply lookup_app_l_Some.
Qed.

Lemma construct_then_dispatch_witness :
  exists self w1,
    PyBuiltins.dispatcher DNone (DStr "kind") (DInt 0)
      (Doctest.case 1 "zero") Doctest.loaded = (Return self, w1) /\
    Dispatcher.__get__ self Doctest.fk Doctest.fk
      [ODict [(DStr "kind", OVal (DBool false))]; OVal (DInt 7)]
      [("b", OVal (DInt 1))] w1 =
      (fn_body (Doctest.case 1 "zero") Doctest.fk
         (ODict [(DStr "kind", OVal (DBool false))]) [OVal (DInt 7)]
         [("b", OVal (DInt 1))],
       called w1 (Doctest.case 1 "zero") Doctest.fk
         (ODict [(DStr "kind", OVal (DBool false))]) [OVal (DInt 7)]
         [("b", OVal (DInt 1))]) /\
    forall other d,
      heap Doctest.loaded !! other = Some d -> heap w1 !! other = Some d.
Proof.
  apply (construct_then_dispatch PyBuiltins.itemgetter
           PyBuiltins.operator_contains PyBuiltins.attrgetter
           PyBuiltins.hasattr DNone (DStr "kind") (DInt 0)
           (Doctest.case 1 "zero") Doctest.loaded Doctest.fk Doctest.fk
           (ODict [(DStr "kind", OVal (DBool false))]) [OVal (DInt 7)]
           [("b", OVal (DInt 1))] (DBool false)); reflexivity.
Defined.

(** X12. Construction then dispatch, attribute mode.  When [key] is false
    and [attr] is a true name that [attrgetter] accepts, the factory builds
    an attribute-mode registry: a dispatch call whose subject passes
    [hasattr] for that name and whose attribute is equal to the value given
    to the factory is a call of the decorated function, and the error
    messages name the attribute. *)
Theorem construct_then_dispatch_attr
    (itemgetter : hval -> pyobj -> outcome hval)
    (operator_contains : pyobj -> hval -> outcome bool)
    (attrgetter : hval -> outcome (pyobj -> outcome hval))
    (hasattr : pyobj -> hval -> outcome bool)
    (attr key value : hval) (method : handler) (w : world)
    (getter : pyobj -> outcome hval)
    (instance instance_type first : pyobj) (rest : list pyobj) (kw : kwargs) :
  truthy key = false ->
  truthy attr = true ->
  attrgetter attr = Return getter ->
  exists self w1,
    dispatcher itemgetter operator_contains attrgetter hasattr
      attr key value method w = (Return self, w1) /\
    (forall V, hasattr first attr = Return true ->
               getter first = Return V ->
               py_eqb value V = true ->
       Dispatcher.__get__ self instance instance_type (first :: rest) kw w1 =
         (fn_body method instance first rest kw,
          called w1 method instance first rest kw)) /\
    (hasattr first attr = Return false ->
       Dispatcher.__get__ self instance instance_type (first :: rest) kw w1 =
         (Raise (MissingDiscriminantError attr), w1)) /\
    (forall V, hasattr first attr = Return true ->
               getter first = Return V ->
               py_eqb value V = false ->
       Dispatcher.__get__ self instance instance_type (first :: rest) kw w1 =
         (Raise (UnregisteredHandlerError V), w1)).
Proof.
  intros Hkey Hattr Hgetter.
  unfold dispatcher. rewrite Hkey, Hattr, Hgetter. unfold bind, lift.
  destruct (Dispatcher.__init__ attr value method getter hasattr w)
    as [r w1] eqn:Hinit.
  pose proof Hinit as Hspec. rewrite init_spec in Hspec.
  injection Hspec as <- _.
  apply init_object in Hinit as [_ Hself].
  exists (length (heap w)), w1.
  split; [reflexivity | ].
  rewrite (get_unfold w1 _ _ Hself). simpl. unfold selected. simpl.
  split; [ | split].
  - intros V -> -> ->. reflexivity.
  - intros ->. reflexivity.
  - intros V -> -> ->. reflexivity.
Qed.

Lemma construct_then_dispatch_attr_witness :
  exists self w1,
    PyBuiltins.dispatcher (DStr "attr") DNone (DStr "value-1")
      (Doctest.case 1 "value-1") empty_world = (Return self, w1) /\
    Dispatcher.__get__ self Doctest.fa Doctest.fa
      [Doctest.Data "value-1" "value-1"] [] w1 =
      (fn_body (Doctest.case 1 "value-1") Doctest.fa
         (Doctest.Data "value-1" "value-1") [] [],
       called w1 (Doctest.case 1 "value-1") Doctest.fa
         (Doctest.Data "value-1" "value-1") [] []).
Proof.
  destruct (construct_then_dispatch_attr PyBuiltins.itemgetter
              PyBuiltins.operator_contains PyBuiltins.attrgetter
              PyBuiltins.hasattr (DStr "attr") DNone (DStr "value-1")
              (Doctest.case 1 "value-1") empty_world _
              Doctest.fa Doctest.fa (Doctest.Data "value-1" "value-1") [] []
              eq_refl eq_refl eq_refl)
    as (self & w1 & Hbuild & Hcall & _).
  exists self, w1. split; [exact Hbuild | ].
  apply (Hcall (DStr "value-1")); reflexivity.
Defined.

(** X13. Registration calls nothing: constructing a registry, adding a
    case (accepted or refused) and setting the default leave the log of
    handler calls as it was.  Decorating a function does not run it. *)
Theorem registration_calls_no_handler :
  (forall key value h getter has w,
     calls (snd (Dispatcher.__init__ key value h getter has w)) = calls w) /\
  (forall self value method w,
     calls (snd (Dispatcher.match_ self value method w)) = calls w) /\
  (forall self method w,
     calls (snd (Dispatcher.nomatch self method w)) = calls w).
Proof.
  split; [ | split].
  - intros. now rewrite init_spec.
  - intros self value method w.
    destruct (heap w !! self) as [d | ] eqn:Hself.
    + destruct (contains (KVal value) (_mapping d)) eqn:Hin.
      * now rewrite (match_duplicate _ _ _ _ _ Hself Hin).
      * now rewrite (match_fresh _ _ _ _ _ Hself Hin).
    + now rewrite (match_invalid _ _ _ _ Hself).
  - intros self method w.
    destruct (heap w !! self) as [d | ] eqn:Hself.
    + now rewrite (nomatch_valid _ _ _ _ Hself).
    + now rewrite (nomatch_invalid _ _ _ Hself).
Qed.
